(** * Verification of the extraction worker: job leasing, statement assembly
      and the caption engine (worker/app/db.py, main.py, models.py, parser.py).

    The Python code is embedded shallowly.  The PostgreSQL session behind a
    psycopg connection opened with [autocommit=False] is modelled by explicit
    state passing: a committed store, the working copy of the open
    transaction, the row locks taken on the job table and the id sequences.
    What psycopg does on the client side is modelled where the worker
    depends on it: the results a cursor holds after a query of several
    statements, and the pairing of a parameter tuple with the placeholders
    of a statement's text.  Python exceptions are modelled by the [outcome]
    type. *)

From Stdlib Require Import List ZArith Bool String Ascii Lia Arith QArith_base Qreduction DecimalString.
Import ListNotations.
Local Open Scope string_scope.
Local Open Scope list_scope.
Local Open Scope Z_scope.

Set Implicit Arguments.

(* ------------------------------------------------------------------ *)
(** ** Python values *)

(** The result of a call that may raise: [Raise e] carries [str(e)]. *)
Inductive outcome (A : Type) : Type :=
| Return (a : A)
| Raise (e : string).
Arguments Return {A} a.
Arguments Raise {A} e.

(** [l[i]] on a Python list: negative indices count from the end, anything
    outside [-len, len) raises IndexError. *)
Definition py_index {A : Type} (l : list A) (i : Z) : option A :=
  let n := Z.of_nat (List.length l) in
  if (0 <=? i) && (i <? n) then nth_error l (Z.to_nat i)
  else if (- n <=? i) && (i <? 0) then nth_error l (Z.to_nat (n + i))
  else None.

Definition IndexError : string := "list index out of range".

(** A str is held as its UTF-8 encoding.  Equality, concatenation,
    [startswith] and the replacement of an ASCII character read the same on
    the encoding; [len] and slicing count code points, each of which starts
    at a byte that is not a continuation byte [10xxxxxx]. *)
Definition is_continuation (b : ascii) : bool :=
  match b with
  | Ascii _ _ _ _ _ _ b6 b7 => b7 && negb b6
  end.

(** [len(s)] on a str. *)
Fixpoint py_len (s : string) : nat :=
  match s with
  | EmptyString => O
  | String b t => if is_continuation b then py_len t else S (py_len t)
  end.

(** [s[:n]] on a str: the first [n] code points, each with all its bytes. *)
Fixpoint py_prefix (n : nat) (s : string) : string :=
  match s with
  | EmptyString => EmptyString
  | String b t =>
      if is_continuation b then String b (py_prefix n t)
      else match n with
           | O => EmptyString
           | S n' => String b (py_prefix n' t)
           end
  end.

(** A number as an f-string prints it. *)
Definition decimal (n : nat) : string := NilEmpty.string_of_uint (Nat.to_uint n).

(** [s.replace(a, '')] and [s.replace(a, b)] for one-character [a], [b]. *)
Fixpoint str_remove (a : ascii) (s : string) : string :=
  match s with
  | EmptyString => EmptyString
  | String c t => if Ascii.eqb c a then str_remove a t else String c (str_remove a t)
  end.

Fixpoint str_subst (a b : ascii) (s : string) : string :=
  match s with
  | EmptyString => EmptyString
  | String c t => String (if Ascii.eqb c a then b else c) (str_subst a b t)
  end.

(** SQL's [coalesce(x, '')] on a nullable text. *)
Definition coalesce (x : option string) : string :=
  match x with
  | Some s => s
  | None => ""
  end.

(* ------------------------------------------------------------------ *)
(** ** Tables *)

Section Worker.

(** Python floats are only moved around by this code (bounding boxes and the
    parsed value), never computed with: the development is parametric in
    their type. *)
Context {float : Type}.

Definition BBox : Type := (float * float * float * float)%type.

Record JobRow : Type := mkJob {
  job_id : string;
  job_storage_path : string;
  job_filing_id : Z;
  job_ruleset_id : option string;
  job_status : string;
  job_error : option string;
  job_created_at : Z;
  job_updated_at : Z
}.

Record StatementRow : Type := mkStatement {
  st_id : Z;
  st_filing_id : Z;
  st_type : string;
  st_language : string;
  st_currency : string
}.

Record LineRow : Type := mkLineRow {
  sl_id : Z;
  sl_statement_id : option Z;
  sl_ref_code : option string;
  sl_caption : string;
  sl_side : option string;
  sl_period : Z;
  sl_value : option float;
  sl_unit : string;
  sl_status : string
}.

Record AnchorRow : Type := mkAnchorRow {
  an_id : Z;
  an_filing_id : Z;
  an_source_type : string;
  an_page : Z;
  an_bbox : BBox;
  an_snippet : string
}.

Record LinkRow : Type := mkLink {
  da_datum_table : string;
  da_datum_id : Z;
  da_anchor_id : Z
}.

Record Db : Type := mkDb {
  job : list JobRow;
  statement : list StatementRow;
  statement_line : list LineRow;
  anchor : list AnchorRow;
  datum_anchor : list LinkRow
}.

(* ------------------------------------------------------------------ *)
(** ** A psycopg connection with autocommit off

    [store] is what is committed (what any other session reads); [txn] is the
    working copy of the transaction the session has open, if any: the first
    [execute] opens it, [commit] publishes it, [rollback] drops it.  [held]
    are the job rows this session has locked, [others] the job rows locked by
    transactions of other sessions.  The sequences behind [RETURNING id] are
    not transactional.  [clock] is the server's [now()].  The schema is not
    part of the worker, so no constraint is modelled: a statement that
    reaches the server with as many values as columns is taken to be
    accepted. *)
Record Conn : Type := mkConn {
  store : Db;
  txn : option Db;
  held : list string;
  others : list string;
  seq_statement : Z;
  seq_line : Z;
  seq_anchor : Z;
  clock : Z
}.

Definition view (c : Conn) : Db :=
  match txn c with
  | Some w => w
  | None => store c
  end.

(** [cur.execute] of a data-modifying statement [f]. *)
Definition execute (f : Db -> Db) (c : Conn) : Conn :=
  mkConn (store c) (Some (f (view c))) (held c) (others c)
         (seq_statement c) (seq_line c) (seq_anchor c) (clock c).

(** [conn.commit()]. *)
Definition commit (c : Conn) : Conn :=
  mkConn (view c) None [] (others c)
         (seq_statement c) (seq_line c) (seq_anchor c) (clock c).

(** [conn.rollback()]. *)
Definition rollback (c : Conn) : Conn :=
  mkConn (store c) None [] (others c)
         (seq_statement c) (seq_line c) (seq_anchor c) (clock c).

(** A row lock taken by [FOR UPDATE]. *)
Definition lock_row (id : string) (c : Conn) : Conn :=
  mkConn (store c) (txn c) (id :: held c) (others c)
         (seq_statement c) (seq_line c) (seq_anchor c) (clock c).

Definition set_clock (t : Z) (c : Conn) : Conn :=
  mkConn (store c) (txn c) (held c) (others c)
         (seq_statement c) (seq_line c) (seq_anchor c) t.

Definition with_job (f : list JobRow -> list JobRow) (d : Db) : Db :=
  mkDb (f (job d)) (statement d) (statement_line d) (anchor d) (datum_anchor d).

(* ------------------------------------------------------------------ *)
(** ** db.py *)

Definition mem_id (id : string) (l : list string) : bool :=
  existsb (String.eqb id) l.

(** [WHERE status='queued'] restricted by [SKIP LOCKED] to the rows no other
    transaction has locked. *)
Definition queued_unlocked (skip : list string) (r : JobRow) : bool :=
  (job_status r =? "queued")%string && negb (mem_id (job_id r) skip).

(** The rows that come first under [ORDER BY created_at]. *)
Definition oldest (l : list JobRow) : list JobRow :=
  filter (fun r => forallb (fun r' => job_created_at r <=? job_created_at r') l) l.

(** [ORDER BY created_at LIMIT 1] names no second key: which of several
    rows of equal [created_at] comes back is the server's choice, here the
    oracle [tie]. *)
Variable tie : list JobRow -> nat.

Definition choose (l : list JobRow) : option JobRow :=
  nth_error l (Nat.modulo (tie l) (List.length l)).

Definition select_for_update_skip_locked (rows : list JobRow) (skip : list string)
  : option JobRow :=
  choose (oldest (filter (queued_unlocked skip) rows)).

(** [UPDATE job SET status='processing' WHERE id=%s]. *)
Definition update_status (id : string) (s : string) (rows : list JobRow) : list JobRow :=
  map (fun r => if (job_id r =? id)%string
                then mkJob (job_id r) (job_storage_path r) (job_filing_id r)
                           (job_ruleset_id r) s (job_error r)
                           (job_created_at r) (job_updated_at r)
                else r) rows.

(** [UPDATE job SET status=%s, error=%s, updated_at=now() WHERE id=%s]. *)
Definition update_outcome (id : string) (s : string) (e : option string) (now : Z)
  (rows : list JobRow) : list JobRow :=
  map (fun r => if (job_id r =? id)%string
                then mkJob (job_id r) (job_storage_path r) (job_filing_id r)
                           (job_ruleset_id r) s e (job_created_at r) now
                else r) rows.

(** The dict returned by [fetch_one_job]. *)
Record Payload : Type := mkPayload {
  p_id : string;
  p_storage_path : string;
  p_filing_id : Z;
  p_ruleset_id : string
}.

(** [coalesce(ruleset_id::text,'')] and the other selected columns. *)
Definition payload_of (r : JobRow) : Payload :=
  mkPayload (job_id r) (job_storage_path r) (job_filing_id r)
            (coalesce (job_ruleset_id r)).

(** The first [execute] on a connection opens the transaction. *)
Definition begin (c : Conn) : Conn := execute (fun d => d) c.

(** What libpq hands back for one statement of a query: a command tag
    without rows, or the rows of a SELECT. *)
Inductive PGresult : Type :=
| CommandOk
| Tuples (rows : list JobRow).

(** The text [fetch_one_job] executes holds two statements, [BEGIN;] and the
    SELECT, sent as one query without parameters; the server answers each,
    and the cursor keeps the results in the order of the statements.
    [BEGIN] inside the transaction psycopg has opened changes nothing. *)
Definition lease_results (row : option JobRow) : list PGresult :=
  [CommandOk; Tuples (match row with Some r => [r] | None => [] end)].

(** [cur.execute] of that text: the SELECT runs, and locks the row it
    selects. *)
Definition execute_lease (c : Conn) : list PGresult * option JobRow * Conn :=
  let c1 := begin c in
  let row := select_for_update_skip_locked (job (view c1)) (others c1) in
  (lease_results row, row,
   match row with
   | Some r => lock_row (job_id r) c1
   | None => c1
   end).

(** [cur.fetchone()]: the cursor stands on the first result of the last
    [execute] ([nextset()], which the worker never calls, moves it on); a
    result without rows to fetch from raises ProgrammingError.  [NoResult]
    is the text psycopg 3.1 gives that error; the wording differs between
    versions of psycopg, and the worker never reads it. *)
Definition NoResult : string := "the last operation didn't produce a result".

Definition fetchone (results : list PGresult) : outcome (option JobRow) :=
  match results with
  | Tuples (r :: _) :: _ => Return (Some r)
  | Tuples [] :: _ => Return None
  | _ => Raise NoResult
  end.

(** [fetch_one_job]: the [execute], then [cur.fetchone()]; what that raises
    leaves the function with the transaction open.  On no row,
    [conn.rollback(); return None]; on a row, the UPDATE, [conn.commit()]
    and the dict. *)
Definition fetch_one_job (c : Conn) : outcome (option Payload) * Conn :=
  let '(results, _, c1) := execute_lease c in
  match fetchone results with
  | Raise e => (Raise e, c1)
  | Return None => (Return None, rollback c1)
  | Return (Some row) =>
      let c2 := execute (with_job (update_status (job_id row) "processing")) c1 in
      (Return (Some (payload_of row)), commit c2)
  end.

(** [mark_job]: one UPDATE by id, then [conn.commit()], which publishes
    whatever the connection's transaction holds. *)
Definition mark_job (id : string) (s : string) (e : option string) (c : Conn)
  : outcome unit * Conn :=
  let c1 := execute (with_job (update_outcome id s e (clock c))) c in
  (Return tt, commit c1).

(* ------------------------------------------------------------------ *)
(** ** models.py and the dicts handed to the assembler

    An anchor dict and a line dict ([StatementLine.model_dump()] merged with
    ['anchor_indices']).  A field read with [.get(key, default)] is an
    option whose [None] is the missing key. *)
Record AnchorIn : Type := mkAnchorIn {
  a_source_type : option string;
  a_page : Z;
  a_bbox : BBox;
  a_snippet : string
}.

Record LineIn : Type := mkLineIn {
  l_statement_type : string;
  l_ref_code : option string;
  l_caption : string;
  l_side : option string;
  l_period : string;
  l_value : option float;
  l_unit : option string;
  l_status : option string;
  l_anchor_indices : option (list Z)
}.

(** [StatementLine(...)] as [parse_mvp] builds it: [unit] and [status] take
    the defaults of the model, ['EUR'] and ['extracted']. *)
Definition StatementLine (statement_type : string) (ref_code : option string)
  (caption : string) (side : option string) (period : string)
  (value : option float) (anchor_indices : list Z) : LineIn :=
  mkLineIn statement_type ref_code caption side period value
           (Some "EUR") (Some "extracted") (Some anchor_indices).

(* ------------------------------------------------------------------ *)
(** ** main.py *)

(** Code that runs on a connection and may raise. *)
Definition Run (A : Type) : Type := Conn -> outcome A * Conn.

Definition ret {A : Type} (a : A) : Run A := fun c => (Return a, c).

Definition bind {A B : Type} (m : Run A) (k : A -> Run B) : Run B :=
  fun c =>
    match m c with
    | (Return a, c') => k a c'
    | (Raise e, c') => (Raise e, c')
    end.

Notation "x <- m ;; k" := (bind m (fun x => k))
  (at level 61, m at next level, right associativity).

(** [try: body except Exception as e: handler(str(e))]. *)
Definition try_except {A : Type} (body : Run A) (handler : string -> Run A) : Run A :=
  fun c =>
    match body c with
    | (Return a, c') => (Return a, c')
    | (Raise e, c') => handler e c'
    end.

Definition with_statement (f : list StatementRow -> list StatementRow) (d : Db) : Db :=
  mkDb (job d) (f (statement d)) (statement_line d) (anchor d) (datum_anchor d).

Definition with_anchor (f : list AnchorRow -> list AnchorRow) (d : Db) : Db :=
  mkDb (job d) (statement d) (statement_line d) (f (anchor d)) (datum_anchor d).

Definition with_link (f : list LinkRow -> list LinkRow) (d : Db) : Db :=
  mkDb (job d) (statement d) (statement_line d) (anchor d) (f (datum_anchor d)).

Definition is_statement (filing_id : Z) (ty : string) (s : StatementRow) : bool :=
  (st_filing_id s =? filing_id) && (st_type s =? ty)%string.

(** [SELECT 1 FROM statement WHERE filing_id=%s AND type=...] followed by
    [cur.fetchone()]: is there such a row. *)
Definition has_statement (filing_id : Z) (ty : string) (d : Db) : bool :=
  existsb (is_statement filing_id ty) (statement d).

(** [INSERT INTO statement (filing_id, type, language, currency)]; the id
    comes from the sequence. *)
Definition insert_statement (filing_id : Z) (ty : string) (c : Conn) : Conn :=
  let row := mkStatement (seq_statement c) filing_id ty "en" "EUR" in
  let c' := execute (with_statement (fun l => l ++ [row])) c in
  mkConn (store c') (txn c') (held c') (others c')
         (seq_statement c + 1) (seq_line c') (seq_anchor c') (clock c').

Definition ensure_statements (filing_id : Z) : Run unit :=
  fun c =>
    let c1 := begin c in
    let c2 := if has_statement filing_id "balance_sheet" (view c1) then c1
              else insert_statement filing_id "balance_sheet" c1 in
    let c3 := begin c2 in
    let c4 := if has_statement filing_id "pnl" (view c3) then c3
              else insert_statement filing_id "pnl" c3 in
    (Return tt, commit c4).

(** The row [INSERT INTO anchor (filing_id, source_type, page, bbox, snippet)]
    stores for an anchor dict. *)
Definition anchor_row (filing_id id : Z) (anc : AnchorIn) : AnchorRow :=
  mkAnchorRow id filing_id
    (match a_source_type anc with Some t => t | None => "text" end)
    (a_page anc) (a_bbox anc) (py_prefix 800 (a_snippet anc)).

(** [INSERT INTO anchor (...) RETURNING id]: the new id and the connection. *)
Definition insert_anchor (filing_id : Z) (anc : AnchorIn) (c : Conn) : Z * Conn :=
  let id := seq_anchor c in
  let c' := execute (with_anchor (fun l => l ++ [anchor_row filing_id id anc])) c in
  (id, mkConn (store c') (txn c') (held c') (others c')
              (seq_statement c') (seq_line c') (seq_anchor c + 1) (clock c')).

(** [for anc in anchors: ...; anc_ids.append(cur.fetchone()[0])]. *)
Fixpoint insert_anchors (filing_id : Z) (anchors : list AnchorIn) (anc_ids : list Z)
  (c : Conn) : list Z * Conn :=
  match anchors with
  | [] => (anc_ids, c)
  | anc :: rest =>
      let (id, c') := insert_anchor filing_id anc c in
      insert_anchors filing_id rest (anc_ids ++ [id]) c'
  end.

(** A value passed to [cur.execute] next to the text of a statement. *)
Inductive Param : Type :=
| PNull
| PInt (z : Z)
| PText (s : string)
| PFloat (x : float)
| PJson (b : BBox).

Definition text_or_null (x : option string) : Param :=
  match x with
  | Some s => PText s
  | None => PNull
  end.

(** The [%s] of a statement's text ([%%] is a percent sign). *)
Fixpoint placeholders (sql : string) : nat :=
  match sql with
  | EmptyString => O
  | String "%"%char (String "s"%char t) => S (placeholders t)
  | String "%"%char (String "%"%char t) => placeholders t
  | String _ t => placeholders t
  end.

(** The text of the INSERT of a line, and the tuple passed with it. *)
Definition INSERT_STATEMENT_LINE : string :=
  "INSERT INTO statement_line (statement_id, ref_code, caption, side, period, value, unit, status) VALUES ((SELECT id FROM statement WHERE filing_id=%s AND type=%s LIMIT 1), %s,%s,%s,%s,%s,%s) RETURNING id".

Definition line_params (filing_id : Z) (line : LineIn) : list Param :=
  [ PInt filing_id;
    PText (l_statement_type line);
    text_or_null (l_ref_code line);
    PText (l_caption line);
    text_or_null (l_side line);
    PInt (if (l_period line =? "current")%string then 0 else 1);
    match l_value line with Some x => PFloat x | None => PNull end;
    PText (match l_unit line with Some u => u | None => "EUR" end);
    PText (match l_status line with Some s => s | None => "extracted" end) ].

(** The ProgrammingError psycopg raises when the tuple and the text
    disagree. *)
Definition placeholder_mismatch (n m : nat) : string :=
  ("the query has " ++ decimal n ++ " placeholders but " ++ decimal m
   ++ " parameters were passed")%string.

Definition TooFewExpressions : string :=
  "INSERT has more target columns than expressions".

(** [cur.execute(INSERT INTO statement_line ..., (...))] and
    [cur.fetchone()[0]].  psycopg opens the transaction if none is open,
    then pairs the tuple with the placeholders of the text, and raises
    before anything of the statement is sent when their numbers differ.
    Sent, the statement would be refused by the server: it names eight
    columns and gives seven expressions. *)
Definition insert_line (filing_id : Z) (line : LineIn) : Run Z :=
  fun c =>
    let c1 := begin c in
    let n := placeholders INSERT_STATEMENT_LINE in
    let m := List.length (line_params filing_id line) in
    if Nat.eqb n m then (Raise TooFewExpressions, c1)
    else (Raise (placeholder_mismatch n m), c1).

(** [for idx in line.get('anchor_indices', []): INSERT INTO datum_anchor
    ... (line_id, anc_ids[idx])]. *)
Fixpoint insert_links (line_id : Z) (anc_ids : list Z) (idxs : list Z) : Run unit :=
  match idxs with
  | [] => ret tt
  | idx :: rest =>
      fun c =>
        match py_index anc_ids idx with
        | None => (Raise IndexError, c)
        | Some anchor_id =>
            insert_links line_id anc_ids rest
              (execute (with_link
                 (fun l => l ++ [mkLink "statement_line" line_id anchor_id])) c)
        end
  end.

Definition indices_of (line : LineIn) : list Z :=
  match l_anchor_indices line with
  | Some l => l
  | None => []
  end.

(** [for line in lines: ...]. *)
Fixpoint insert_each_line (filing_id : Z) (anc_ids : list Z) (lines : list LineIn)
  : Run unit :=
  match lines with
  | [] => ret tt
  | line :: rest =>
      line_id <- insert_line filing_id line ;;
      _ <- insert_links line_id anc_ids (indices_of line) ;;
      insert_each_line filing_id anc_ids rest
  end.

Definition insert_lines (filing_id : Z) (lines : list LineIn) (anchors : list AnchorIn)
  : Run unit :=
  fun c =>
    let (anc_ids, c1) := insert_anchors filing_id anchors [] c in
    (_ <- insert_each_line filing_id anc_ids lines ;;
     fun c2 => (Return tt, commit c2)) c1.

(* ------------------------------------------------------------------ *)
(** ** parser.py

    A document as fitz presents it: each page gives its blocks
    ([get_text('blocks')], of which the code keeps the box and the text) and
    its plain text ([get_text('text')]). *)
Record Block : Type := mkBlock {
  b_bbox : BBox;
  b_text : string
}.

Record Page : Type := mkPage {
  page_blocks : list Block;
  page_text : string
}.

Definition Doc : Type := list Page.

(** The dicts built by [extract_text_blocks]; ['page'] is the 0-based page
    number.  The text of a block is a str, which [blk['text'] or ''] leaves
    as it is. *)
Record TextBlock : Type := mkTextBlock {
  tb_page : nat;
  tb_bbox : BBox;
  tb_text : string
}.

(** The module [re] and the builtin [float] are the interpreter's:
    [re_search pat s] is [re.search(pat, s, flags=re.I)] as a truth value,
    [re_findall pat s] is [re.findall(pat, s)] and [py_float raw] is
    [float(raw)], [None] where it raises. *)
Variable re_search : string -> string -> bool.
Variable re_findall : string -> string -> list string.
Variable py_float : string -> option float.

Definition CAPTIONS : list (string * list string) :=
  [ ("total_assets",
     ["Total\s+assets"; "Total\s+du\s+bilan"; "Summe\s+der\s+Aktiva"]);
    ("total_equity_liabilities",
     ["Total\s+equity\s+and\s+liabilities";
      "Total\s+des\s+capitaux\s+propres.*passif";
      "Summe\s+des\s+Eigenkapitals.*Passiva"]) ].

Fixpoint extract_from (pno : nat) (pages : list Page) : list TextBlock :=
  match pages with
  | [] => []
  | page :: rest =>
      map (fun b => mkTextBlock pno (b_bbox b) (b_text b)) (page_blocks page)
      ++ extract_from (S pno) rest
  end.

Definition extract_text_blocks (doc : Doc) : list TextBlock := extract_from 0 doc.

Fixpoint find_from (i : nat) (blocks : list TextBlock) (patterns : list string)
  : option (nat * TextBlock) :=
  match blocks with
  | [] => None
  | blk :: rest =>
      if existsb (fun pat => re_search pat (tb_text blk)) patterns
      then Some (i, blk)
      else find_from (S i) rest patterns
  end.

Definition find_first (doc : Doc) (patterns : list string) : option (nat * TextBlock) :=
  find_from 0 (extract_text_blocks doc) patterns.

Definition NUMBER : string := "(-?\d[\d\s\.\,]{2,})".

(** [nums[-1].replace(' ','').replace('.','').replace(',','.')]. *)
Definition clean_number (tok : string) : string :=
  str_subst "," "." (str_remove "." (str_remove " " tok)).

Definition caption_map (key : string) : option (string * string) :=
  if (key =? "total_assets")%string then Some ("Total Assets", "assets")
  else if (key =? "total_equity_liabilities")%string
       then Some ("Total Equity and Liabilities", "liabilities")
       else None.

Record ParseResult : Type := mkResult {
  r_anchors : list AnchorIn;
  r_lines : list LineIn
}.

(** The value read for a caption found on [page]. *)
Definition read_value (page : Page) : option float :=
  match rev (re_findall NUMBER (page_text page)) with
  | [] => None
  | tok :: _ => py_float (clean_number tok)
  end.

(** [for key, pats in CAPTIONS.items(): ...] with the two lists it builds. *)
Fixpoint parse_loop (doc : Doc) (items : list (string * list string))
  (anchors : list AnchorIn) (lines : list LineIn) : outcome ParseResult :=
  match items with
  | [] => Return (mkResult anchors lines)
  | (key, pats) :: rest =>
      match find_first doc pats with
      | None => parse_loop doc rest anchors lines
      | Some (_, blk) =>
          match nth_error doc (tb_page blk) with
          | None => Raise "page not in document"
          | Some page =>
              let value := read_value page in
              let anc_idx := Z.of_nat (List.length anchors) in
              let anc := mkAnchorIn (Some "text") (Z.of_nat (tb_page blk) + 1)
                           (tb_bbox blk) (py_prefix 200 (tb_text blk)) in
              match caption_map key with
              | None => Raise key
              | Some (caption, side) =>
                  parse_loop doc rest (anchors ++ [anc])
                    (lines ++ [StatementLine "balance_sheet" None caption (Some side)
                                 "current" value [anc_idx]])
              end
          end
      end
  end.

(** [parse_mvp] from the document [fitz.open(pdf_path)] gives on; a path
    fitz cannot open is a retrieval that raised (see [requests_get]
    below). *)
Definition parse_mvp (doc : Doc) : outcome ParseResult :=
  parse_loop doc CAPTIONS [] [].

(* ------------------------------------------------------------------ *)
(** ** main.py: retrieval and the loop *)

(** The process environment, and [requests.get(url, headers)] followed by
    [raise_for_status()].  The temporary file [download_pdf] returns is
    identified with the document [fitz.open] reads from it, so that
    [requests_get url key] is the document stored under [url] as fitz opens
    it, or the text of the exception raised on the way there: by the
    request, by [raise_for_status()], by writing the file or by
    [fitz.open].  All of them are raised inside the [try] of [main], after
    [ensure_statements] and before anything of [insert_lines]. *)
Variables SUPABASE_URL SERVICE_KEY BUCKET : string.
Variable requests_get : string -> string -> outcome Doc.

Definition download_pdf (storage_path : string) : outcome Doc :=
  let url := if prefix BUCKET storage_path
             then (SUPABASE_URL ++ "/storage/v1/object/" ++ storage_path)%string
             else (SUPABASE_URL ++ "/storage/v1/object/" ++ BUCKET ++ "/"
                   ++ storage_path)%string in
  requests_get url SERVICE_KEY.

Definition lift {A : Type} (o : outcome A) : Run A := fun c => (o, c).

(** The [try] statement of [main] for a leased job. *)
Definition process (j : Payload) : Run unit :=
  try_except
    (_ <- ensure_statements (p_filing_id j) ;;
     path <- lift (download_pdf (p_storage_path j)) ;;
     result <- lift (parse_mvp path) ;;
     _ <- insert_lines (p_filing_id j) (r_lines result) (r_anchors result) ;;
     mark_job (p_id j) "succeeded" None)
    (fun e => mark_job (p_id j) "failed" (Some e)).

(** Leaving [with connect() as conn]: commit, or roll back when an exception
    escapes. *)
Definition leave {A : Type} (r : outcome A * Conn) : outcome A * Conn :=
  match r with
  | (Return a, c) => (Return a, commit c)
  | (Raise e, c) => (Raise e, rollback c)
  end.

(** One turn of [while True] on a fresh connection.  [fetch_one_job] is
    called outside the [try]: what it raises leaves the [with] block and
    the loop. *)
Definition main_iteration (c : Conn) : outcome unit * Conn :=
  match fetch_one_job c with
  | (Raise e, c1) => leave (Raise e, c1)
  | (Return None, c1) => leave (Return tt, c1)
  | (Return (Some j), c1) => leave (process j c1)
  end.

(** [while True: ...], cut after [n] turns. *)
Fixpoint main (n : nat) (c : Conn) : outcome unit * Conn :=
  match n with
  | O => (Return tt, c)
  | S n' =>
      match main_iteration c with
      | (Return _, c') => main n' c'
      | (Raise e, c') => (Raise e, c')
      end
  end.

End Worker.

Notation "x <- m ;; k" := (bind m (fun x => k))
  (at level 61, m at next level, right associativity).

(* ------------------------------------------------------------------ *)
(** ** The interpreter's [re] and [float] on the patterns of parser.py

    Regular expressions with Brzozowski derivatives, and decimal figures
    read as the rationals they denote.  They stand for the interpreter on
    the sample texts below only: ASCII text, where [\s], [\d] and [re.I]
    are the ASCII classes, and figures [float] represents exactly.  For the
    number pattern, which ends in a greedy class repetition, the match [re]
    finds at a position is the longest one. *)
Module Re.

Inductive re : Type :=
| Void
| Eps
| Sym (p : ascii -> bool)
| Cat (a b : re)
| Alt (a b : re)
| Star (a : re).

Fixpoint nullable (r : re) : bool :=
  match r with
  | Void => false
  | Eps => true
  | Sym _ => false
  | Cat a b => nullable a && nullable b
  | Alt a b => nullable a || nullable b
  | Star _ => true
  end.

Definition cat (a b : re) : re :=
  match a, b with
  | Void, _ => Void
  | _, Void => Void
  | Eps, _ => b
  | _, _ => Cat a b
  end.

Definition alt (a b : re) : re :=
  match a, b with
  | Void, _ => b
  | _, Void => a
  | _, _ => Alt a b
  end.

Fixpoint deriv (c : ascii) (r : re) : re :=
  match r with
  | Void => Void
  | Eps => Void
  | Sym p => if p c then Eps else Void
  | Cat a b =>
      if nullable a then alt (cat (deriv c a) b) (deriv c b)
      else cat (deriv c a) b
  | Alt a b => alt (deriv c a) (deriv c b)
  | Star a => cat (deriv c a) (Star a)
  end.

(** Does a prefix of [s] match [r]. *)
Fixpoint prefix_match (r : re) (s : string) : bool :=
  nullable r ||
  match s with
  | EmptyString => false
  | String c t => prefix_match (deriv c r) t
  end.

(** [re.search]: does [r] match somewhere in [s]. *)
Fixpoint search (r : re) (s : string) : bool :=
  prefix_match r s ||
  match s with
  | EmptyString => false
  | String _ t => search r t
  end.

(** Length of the longest prefix of [s] that [r] matches. *)
Fixpoint longest (r : re) (s : string) : option nat :=
  match s with
  | EmptyString => if nullable r then Some O else None
  | String c t =>
      match longest (deriv c r) t with
      | Some n => Some (S n)
      | None => if nullable r then Some O else None
      end
  end.

(** [re.findall] for a pattern without empty matches: leftmost matches,
    none overlapping; [skip] characters belong to the match before. *)
Fixpoint findall_from (r : re) (s : string) (skip : nat) : list string :=
  match s with
  | EmptyString => []
  | String _ t =>
      match skip with
      | S k => findall_from r t k
      | O =>
          match longest r s with
          | Some (S n) => substring 0 (S n) s :: findall_from r t n
          | _ => findall_from r t 0
          end
      end
  end.

Definition findall (r : re) (s : string) : list string := findall_from r s 0.

Definition lower (c : ascii) : ascii :=
  let n := nat_of_ascii c in
  if (Nat.leb 65 n && Nat.leb n 90)%bool then ascii_of_nat (n + 32) else c.

(** A literal character under [re.I]. *)
Definition chr (c : ascii) : re := Sym (fun x => Ascii.eqb (lower x) (lower c)).

Fixpoint lit (s : string) : re :=
  match s with
  | EmptyString => Eps
  | String c t => Cat (chr c) (lit t)
  end.

(** [\s], [\d], [.] and the class [[\d\s\.\,]]. *)
Definition is_space (c : ascii) : bool :=
  let n := nat_of_ascii c in
  (Nat.eqb n 32 || (Nat.leb 9 n && Nat.leb n 13) || (Nat.leb 28 n && Nat.leb n 31))%bool.

Definition is_digit (c : ascii) : bool :=
  let n := nat_of_ascii c in (Nat.leb 48 n && Nat.leb n 57)%bool.

Definition space : re := Sym is_space.
Definition digit : re := Sym is_digit.
Definition dot : re := Sym (fun c => negb (Nat.eqb (nat_of_ascii c) 10)).
Definition number_class : re :=
  Sym (fun c => (is_digit c || is_space c || Ascii.eqb c "." || Ascii.eqb c ",")%bool).

Definition plus (r : re) : re := Cat r (Star r).
Definition opt (r : re) : re := Alt Eps r.
Definition two_or_more (r : re) : re := Cat r (Cat r (Star r)).

(** [w1\s+w2\s+...\s+wn]. *)
Fixpoint words (ws : list string) : re :=
  match ws with
  | [] => Eps
  | [w] => lit w
  | w :: rest => Cat (lit w) (Cat (plus space) (words rest))
  end.

(** The patterns the parser uses, each next to its reading. *)
Definition patterns : list (string * re) :=
  [ ("Total\s+assets", words ["Total"; "assets"]);
    ("Total\s+du\s+bilan", words ["Total"; "du"; "bilan"]);
    ("Summe\s+der\s+Aktiva", words ["Summe"; "der"; "Aktiva"]);
    ("Total\s+equity\s+and\s+liabilities",
     words ["Total"; "equity"; "and"; "liabilities"]);
    ("Total\s+des\s+capitaux\s+propres.*passif",
     Cat (words ["Total"; "des"; "capitaux"; "propres"]) (Cat (Star dot) (lit "passif")));
    ("Summe\s+des\s+Eigenkapitals.*Passiva",
     Cat (words ["Summe"; "des"; "Eigenkapitals"]) (Cat (Star dot) (lit "Passiva")));
    ("(-?\d[\d\s\.\,]{2,})",
     Cat (opt (Sym (Ascii.eqb "-"))) (Cat digit (two_or_more number_class))) ].

Definition compile (pat : string) : option re :=
  option_map snd (find (fun e => (fst e =? pat)%string) patterns).

Definition re_search (pat s : string) : bool :=
  match compile pat with
  | Some r => search r s
  | None => false
  end.

Definition re_findall (pat s : string) : list string :=
  match compile pat with
  | Some r => findall r s
  | None => []
  end.

End Re.

(** [float(raw)] on what [clean_number] can hand it: an optional sign,
    digits with at most one point and at least one digit, white space
    allowed around.  The float read is represented by the decimal it is the
    nearest double to. *)
Module Float.

Fixpoint lstrip (s : string) : string :=
  match s with
  | EmptyString => EmptyString
  | String c t => if Re.is_space c then lstrip t else s
  end.

Fixpoint rstrip (s : string) : string :=
  match s with
  | EmptyString => EmptyString
  | String c t =>
      match rstrip t with
      | EmptyString => if Re.is_space c then EmptyString else String c EmptyString
      | t' => String c t'
      end
  end.

Definition digit_value (c : ascii) : Z := Z.of_nat (nat_of_ascii c) - 48.

(** Reads digits: the number so far, how many were read, what is left. *)
Fixpoint take_digits (s : string) (m : Z) (k : nat) : Z * nat * string :=
  match s with
  | EmptyString => (m, k, s)
  | String c t =>
      if Re.is_digit c then take_digits t (10 * m + digit_value c) (S k)
      else (m, k, s)
  end.

Definition unsigned_decimal (s : string) : option Q :=
  let '(m1, k1, r1) := take_digits s 0 0 in
  match r1 with
  | EmptyString => if Nat.eqb k1 0 then None else Some (Qmake m1 1)
  | String c t =>
      if Ascii.eqb c "." then
        let '(m2, k2, r2) := take_digits t m1 0 in
        match r2 with
        | EmptyString =>
            if Nat.eqb (k1 + k2) 0 then None
            else Some (Qred (Qmake m2 (Z.to_pos (10 ^ Z.of_nat k2))))
        | String _ _ => None
        end
      else None
  end.

Definition py_float (raw : string) : option Q :=
  match rstrip (lstrip raw) with
  | EmptyString => None
  | String c t =>
      if Ascii.eqb c "-" then option_map Qopp (unsigned_decimal t)
      else if Ascii.eqb c "+" then unsigned_decimal t
      else unsigned_decimal (String c t)
  end.

End Float.

(* ------------------------------------------------------------------ *)
(** ** Several workers on one backlog

    Each worker runs the loop of [main] on a connection of its own; the
    statements of [fetch_one_job] and [mark_job] of different workers
    interleave.  A worker is where its control is; the job table is the
    committed one; the rows locked by a worker are those its open
    transaction selected [FOR UPDATE].  [returns] records, latest first, what
    every call of [fetch_one_job] returned and to whom. *)
Section Lease.

Variable tie : list JobRow -> nat.

(** Where a worker is: before [fetch_one_job]; after its first [execute],
    with the cursor's results and the row the SELECT locked; after the
    UPDATE; with a leased job in hand; or dead, an exception having left
    [main]. *)
Inductive Pc : Type :=
| Idle
| Selected (results : list PGresult) (locked : option JobRow)
| Updated (row : JobRow)
| Holding (j : Payload)
| Crashed (e : string).

Record System : Type := mkSystem {
  backlog : list JobRow;
  workers : list Pc;
  returns : list (nat * option Payload)
}.

(** The row a worker's open transaction has locked. *)
Definition in_flight (pc : Pc) : option JobRow :=
  match pc with
  | Selected _ (Some row) => Some row
  | Updated row => Some row
  | _ => None
  end.

Definition flight (s : System) (i : nat) : option JobRow :=
  match nth_error (workers s) i with
  | Some pc => in_flight pc
  | None => None
  end.

(** Ids of the rows locked by workers other than [i], counting from [k]. *)
Fixpoint locks_except (i k : nat) (ws : list Pc) : list string :=
  match ws with
  | [] => []
  | pc :: rest =>
      match in_flight pc with
      | Some row => if Nat.eqb k i then locks_except i (S k) rest
                    else job_id row :: locks_except i (S k) rest
      | None => locks_except i (S k) rest
      end
  end.

Fixpoint set_nth {A : Type} (i : nat) (x : A) (l : list A) : list A :=
  match l, i with
  | [], _ => []
  | _ :: t, O => x :: t
  | a :: t, S i' => a :: set_nth i' x t
  end.

(** A move: which worker runs its next statement, and, should that be
    [mark_job], with what outcome and when. *)
Record Move : Type := mkMove {
  who : nat;
  succeeded : bool;
  error : option string;
  now : Z
}.

Definition outcome_status (m : Move) : string :=
  if succeeded m then "succeeded" else "failed".

(** The next statement of worker [who m]:
    - [Idle]: the [execute] of [fetch_one_job], whose SELECT locks the row
      it selects;
    - [Selected results locked]: [cur.fetchone()] on these results.  What
      it raises leaves [fetch_one_job], [main] and the [with] block, which
      rolls back and so gives the lock up; on no row, [conn.rollback();
      return None] and the loop polls again; on a row, the UPDATE, pending
      in the open transaction;
    - [Updated row]: [conn.commit(); return {...}];
    - [Holding j]: [mark_job], at the end of processing;
    - [Crashed e]: nothing, the process has ended. *)
Definition step (m : Move) (s : System) : System :=
  let i := who m in
  match nth_error (workers s) i with
  | None => s
  | Some Idle =>
      let row := select_for_update_skip_locked tie (backlog s)
                   (locks_except i 0 (workers s)) in
      mkSystem (backlog s)
               (set_nth i (Selected (lease_results row) row) (workers s)) (returns s)
  | Some (Selected results _) =>
      match fetchone results with
      | Raise e =>
          mkSystem (backlog s) (set_nth i (Crashed e) (workers s)) (returns s)
      | Return None =>
          mkSystem (backlog s) (set_nth i Idle (workers s)) ((i, None) :: returns s)
      | Return (Some row) =>
          mkSystem (backlog s) (set_nth i (Updated row) (workers s)) (returns s)
      end
  | Some (Updated row) =>
      mkSystem (update_status (job_id row) "processing" (backlog s))
               (set_nth i (Holding (payload_of row)) (workers s))
               ((i, Some (payload_of row)) :: returns s)
  | Some (Holding j) =>
      mkSystem (update_outcome (p_id j) (outcome_status m) (error m) (now m) (backlog s))
               (set_nth i Idle (workers s)) (returns s)
  | Some (Crashed _) => s
  end.

Definition run (ms : list Move) (s : System) : System :=
  fold_left (fun s m => step m s) ms s.

(** [n] workers about to lease from [jobs]. *)
Definition init (jobs : list JobRow) (n : nat) : System :=
  mkSystem jobs (repeat Idle n) [].

(** The job a return leased, if any. *)
Definition ids_of_return (e : nat * option Payload) : list string :=
  match snd e with
  | Some j => [p_id j]
  | None => []
  end.

(** The jobs leased so far, by id. *)
Definition leased (s : System) : list string :=
  flat_map ids_of_return (returns s).

(** How many of the moves are worker [i]'s. *)
Definition moves_of (i : nat) (ms : list Move) : nat :=
  List.length (filter (fun m => Nat.eqb (who m) i) ms).

(** Where a worker is after [k] moves of its own from [Idle]. *)
Definition after_moves (k : nat) (pc : Pc) : Prop :=
  match k with
  | O => pc = Idle
  | S O => exists row, pc = Selected (lease_results row) row
  | _ => pc = Crashed NoResult
  end.

(** The connection worker [i] has when it enters [fetch_one_job]. *)
Definition conn_of {float : Type} (s : System) (i : nat) : Conn (float := float) :=
  mkConn (mkDb (backlog s) [] [] [] []) None []
         (locks_except i 0 (workers s)) 0 0 0 0.

End Lease.

(* ------------------------------------------------------------------ *)
(** ** Sequences of calls used in the statements *)

Section Calls.

Context {float : Type}.

(** [mark_job] called for the same job once per entry, each at its server
    time, with its status and its error text. *)
Fixpoint reports (id : string) (calls : list (Z * string * option string))
  : Run (float := float) unit :=
  match calls with
  | [] => ret tt
  | (t, s, e) :: rest =>
      fun c => (_ <- mark_job id s e ;; reports id rest) (set_clock t c)
  end.

(** [ensure_statements] called [n] times for the same filing. *)
Fixpoint ensure_times (n : nat) (filing_id : Z) : Run (float := float) unit :=
  match n with
  | O => ret tt
  | S n' => _ <- ensure_statements filing_id ;; ensure_times n' filing_id
  end.

(** How many statements of a kind a filing has. *)
Definition count_statements (filing_id : Z) (ty : string) (d : Db (float := float)) : nat :=
  List.length (filter (is_statement filing_id ty) (statement d)).

End Calls.

(* ------------------------------------------------------------------ *)
(** ** What the statements below are about *)

Section Specs.

Context {float : Type}.
Implicit Types c : Conn (float := float).
Implicit Types d : Db (float := float).

(** One check-then-insert of [ensure_statements]. *)
Definition ensure_one (filing_id : Z) (ty : string) c : Conn (float := float) :=
  if has_statement filing_id ty (view (begin c)) then begin c
  else insert_statement filing_id ty (begin c).

(** The ids a sequence hands out from [first] on. *)
Fixpoint ids_from (first : Z) (n : nat) : list Z :=
  match n with
  | O => []
  | S n' => first :: ids_from (first + 1) n'
  end.

(** The anchor rows stored for [anchors], ids counted from [first]. *)
Fixpoint anchor_rows (filing_id first : Z) (anchors : list (AnchorIn (float := float)))
  : list AnchorRow :=
  match anchors with
  | [] => []
  | anc :: rest => anchor_row filing_id first anc :: anchor_rows filing_id (first + 1) rest
  end.

(** [c'] is [c] after inserts of anchors [A], lines [L] and links [K] in its
    transaction. *)
Definition grows c c' (A : list (AnchorRow (float := float)))
  (L : list (LineRow (float := float))) (K : list LinkRow) : Prop :=
  store c' = store c /\ held c' = held c /\ others c' = others c
  /\ seq_statement c' = seq_statement c /\ clock c' = clock c
  /\ job (view c') = job (view c) /\ statement (view c') = statement (view c)
  /\ anchor (view c') = anchor (view c) ++ A
  /\ statement_line (view c') = statement_line (view c) ++ L
  /\ datum_anchor (view c') = datum_anchor (view c) ++ K
  /\ seq_anchor c' = seq_anchor c + Z.of_nat (List.length A)
  /\ seq_line c' = seq_line c + Z.of_nat (List.length L).

(** What the two lists of [parse_mvp] look like at any point of its loop:
    as many anchors as lines, the line at position [k] declaring the one
    index [k] and carrying the model's default status. *)
Definition engine_shape (anchors : list (AnchorIn (float := float)))
  (lines : list (LineIn (float := float))) : Prop :=
  List.length anchors = List.length lines
  /\ forall k line, nth_error lines k = Some line ->
       l_anchor_indices line = Some [Z.of_nat k] /\ l_status line = Some "extracted".

End Specs.

(** The claim read as it stands: a run whose retrieval fails creates no
    statement, line or anchor. *)
Definition failure_creates_nothing {float : Type}
  (run : Run (float := float) unit) (c : Conn (float := float)) : Prop :=
  forall c', run c = (Return tt, c') ->
    statement (store c') = statement (view c)
    /\ statement_line (store c') = statement_line (view c)
    /\ anchor (store c') = anchor (view c).

(** What holds of every state [n] workers reach from the backlog [jobs] by
    the moves [ms]: the job table is as it was and no call of
    [fetch_one_job] has returned; each worker is where its own moves have
    taken it; the rows locked are queued rows of the table, no two workers
    holding a lock on the same one. *)
Record Reached (jobs : list JobRow) (n : nat) (ms : list Move) (s : System)
  : Prop := mkReached {
  reached_backlog : backlog s = jobs;
  reached_returns : returns s = [];
  reached_workers : List.length (workers s) = n;
  reached_pc : forall i pc, nth_error (workers s) i = Some pc ->
                 after_moves (moves_of i ms) pc;
  reached_flight : forall i r, flight s i = Some r ->
                     In r jobs /\ job_status r = "queued";
  reached_excl : forall i j r r', flight s i = Some r -> flight s j = Some r' ->
                   job_id r = job_id r' -> i = j
}.

(* ------------------------------------------------------------------ *)
(** ** Notions for the properties of parser.py *)

Section ParserSpecs.

Context {float : Type}.
Variable re_search : string -> string -> bool.

(** Does one of the patterns match the text of the block. *)
Definition matches_any (pats : list string) (blk : TextBlock (float := float)) : bool :=
  existsb (fun pat => re_search pat (tb_text blk)) pats.

(** Is a caption with these patterns found in the document. *)
Definition found (doc : Doc (float := float)) (pats : list string) : bool :=
  match find_first re_search doc pats with
  | Some _ => true
  | None => false
  end.

(** The captions [parse_mvp] emits lines for, in the order of [CAPTIONS]. *)
Definition captions_found (doc : Doc (float := float))
  (items : list (string * list string)) : list (string * option string) :=
  flat_map (fun item =>
              if found doc (snd item) then
                match caption_map (fst item) with
                | Some (caption, side) => [(caption, Some side)]
                | None => []
                end
              else []) items.

End ParserSpecs.

Section EngineSpecs.

Context {float : Type}.
Variable re_findall : string -> string -> list string.
Variable py_float : string -> option float.

(** The anchor and the line [parse_mvp] appends for a caption found in
    block [blk] on [page]. *)
Definition step_anchor (blk : TextBlock (float := float)) : AnchorIn (float := float) :=
  mkAnchorIn (Some "text") (Z.of_nat (tb_page blk) + 1) (tb_bbox blk)
             (py_prefix 200 (tb_text blk)).

(** Line and anchor at the same position go together: the anchor is built
    from a block of the document, the value read on that block's page. *)
Definition paired (doc : Doc (float := float))
  (anchors : list (AnchorIn (float := float))) (lines : list (LineIn (float := float)))
  : Prop :=
  List.length anchors = List.length lines
  /\ forall k line anc,
       nth_error lines k = Some line -> nth_error anchors k = Some anc ->
       exists blk page,
         In blk (extract_text_blocks doc)
         /\ nth_error doc (tb_page blk) = Some page
         /\ anc = step_anchor blk
         /\ l_value line = read_value re_findall py_float page.

End EngineSpecs.

(* ------------------------------------------------------------------ *)
(** ** Notions for the properties of main.py *)

(** How the job is reported for the lines the engine emitted. *)
Definition reported_status {float : Type} (lines : list (LineIn (float := float))) : string :=
  match lines with
  | [] => "succeeded"
  | _ :: _ => "failed"
  end.

Definition reported_error {float : Type} (lines : list (LineIn (float := float))) : option string :=
  match lines with
  | [] => None
  | _ :: _ => Some "the query has 8 placeholders but 9 parameters were passed"
  end.

(** A token part without separators: no space, point or comma in it. *)
Fixpoint plain (s : string) : bool :=
  match s with
  | EmptyString => true
  | String c t =>
      negb (Ascii.eqb c " ") && negb (Ascii.eqb c ".") && negb (Ascii.eqb c ",")
      && plain t
  end.

(* ------------------------------------------------------------------ *)
(** ** Sample data *)

Module Sample.

Definition tie_first : list JobRow -> nat := fun _ => O.

Definition queued_job (id : string) (created : Z) : JobRow :=
  mkJob id ("filings/" ++ id ++ ".pdf")%string 7 None "queued" None created created.

Definition db_of (jobs : list JobRow) : Db (float := Q) := mkDb jobs [] [] [] [].

(** A fresh connection to a database holding [jobs], where other sessions
    have the rows [locked] locked. *)
Definition fresh (jobs : list JobRow) (locked : list string) : Conn (float := Q) :=
  mkConn (db_of jobs) None [] locked 1 1 1 100.

Definition two_jobs : list JobRow := [queued_job "j1" 1; queued_job "j2" 2].

End Sample.

Module SampleLines.

Definition box : BBox (float := Q) := (Qmake 0 1, Qmake 0 1, Qmake 1 1, Qmake 1 1).

Definition A0 : AnchorIn (float := Q) := mkAnchorIn (Some "text") 3 box "Total assets 12 345".
Definition A1 : AnchorIn (float := Q) := mkAnchorIn (Some "text") 4 box "Total equity 12 345".

(** A balance-sheet line declaring the anchor indices [idxs]. *)
Definition line (idxs : list Z) : LineIn (float := Q) :=
  StatementLine "balance_sheet" None "Total Assets" (Some "assets") "current"
                (Some (Qmake 12345 1)) idxs.

End SampleLines.

Module SampleDocs.

(** One page whose only block is [text] and whose plain text is [text]. *)
Definition one_page (text : string) : Doc (float := Q) :=
  [mkPage [mkBlock SampleLines.box text] text].

(** A caption with no figure next to it. *)
Definition caption_only : Doc (float := Q) := one_page "Total assets".

(** A caption followed by a token [float] rejects. *)
Definition caption_bad_number : Doc (float := Q) := one_page "Total assets 1,2,3".

(** A caption with its figure. *)
Definition caption_number : Doc (float := Q) := one_page "Total assets 12 345,00".

(** No caption at all. *)
Definition no_caption : Doc (float := Q) := one_page "Notes to the accounts 2023".

End SampleDocs.

Module SampleRun.

(** A leased job: its row is [processing]. *)
Definition leased_job : JobRow :=
  mkJob "j1" "filings/j1.pdf" 7 None "processing" None 1 1.

Definition not_found : string := "404 Client Error: Not Found for url".

(** Object storage that has no such document, and one that serves [doc]. *)
Definition storage_404 : string -> string -> outcome (Doc (float := Q)) :=
  fun _ _ => Raise not_found.

Definition storage_of (doc : Doc (float := Q)) : string -> string -> outcome (Doc (float := Q)) :=
  fun _ _ => Return doc.

(** The try statement of [main] with the sample environment. *)
Definition process_with (storage : string -> string -> outcome (Doc (float := Q)))
  : Payload -> Run (float := Q) unit :=
  process Re.re_search Re.re_findall Float.py_float
          "https://project.supabase.co" "service-key" "filings" storage.

Definition conn : Conn (float := Q) := Sample.fresh [leased_job] [].

End SampleRun.

Module SampleRace.

(** A move of worker [i]; its report, were it to come to that, says
    [succeeded]. *)
Definition move (i : nat) : Move := mkMove i true None 50.

(** Two workers whose statements alternate. *)
Definition alternate : list Move :=
  [move 0; move 1; move 0; move 1; move 0; move 1].

End SampleRace.

(* ------------------------------------------------------------------ *)
(** * Properties *)

Unset Implicit Arguments.

Section ConnectionFacts.

Context {float : Type}.
Implicit Types c : Conn (float := float).

Lemma view_execute (f : Db -> Db) c : view (execute f c) = f (view c).
Proof. reflexivity. Qed.

Lemma view_begin c : view (begin c) = view c.
Proof. reflexivity. Qed.

Lemma view_commit c : view (commit c) = view c.
Proof. reflexivity. Qed.

Lemma store_commit c : store (commit c) = view c.
Proof. reflexivity. Qed.

Lemma txn_commit c : txn (commit c) = None.
Proof. reflexivity. Qed.

Lemma update_outcome_twice id s1 e1 t1 s2 e2 t2 rows :
  update_outcome id s2 e2 t2 (update_outcome id s1 e1 t1 rows)
  = update_outcome id s2 e2 t2 rows.
Proof.
  unfold update_outcome. rewrite map_map. apply map_ext. intro r.
  destruct (job_id r =? id)%string eqn:E; cbn; rewrite E; reflexivity.
Qed.

Lemma update_outcome_hit id s e t rows r :
  In r (update_outcome id s e t rows) -> job_id r = id ->
  job_status r = s /\ job_error r = e /\ job_updated_at r = t.
Proof.
  unfold update_outcome. rewrite in_map_iff. intros [r0 [Hr _]] Hid.
  destruct (job_id r0 =? id)%string eqn:E.
  - subst r. cbn. auto.
  - subst r0. apply String.eqb_neq in E. contradiction.
Qed.

Lemma update_outcome_ids id s e t rows :
  map job_id (update_outcome id s e t rows) = map job_id rows.
Proof.
  unfold update_outcome. rewrite map_map. apply map_ext. intro r.
  destruct (job_id r =? id)%string; reflexivity.
Qed.

Lemma reports_snoc id calls t s e c :
  exists c',
    reports id (calls ++ [(t, s, e)]) c = (Return tt, c')
    /\ txn c' = None
    /\ store c' = with_job (update_outcome id s e t) (view c).
Proof.
  revert c. induction calls as [|[[t1 s1] e1] calls IH]; intro c.
  - cbn. eexists. split; [reflexivity|]. split; reflexivity.
  - cbn [app reports]. unfold bind. cbn [mark_job].
    match goal with |- context [reports id _ ?c1] => destruct (IH c1) as [c' [H1 [H2 H3]]] end.
    exists c'. rewrite H1. split; [reflexivity|]. split; [exact H2|].
    rewrite H3, view_commit, view_execute.
    change (view (set_clock t1 c)) with (view c).
    unfold with_job. cbn [job statement statement_line anchor datum_anchor].
    rewrite update_outcome_twice. reflexivity.
Qed.

End ConnectionFacts.

(** C7: [mark_job] is last-write-wins and never raises: after any sequence
    of calls for one job, whatever ran before on the connection, the call
    sequence has returned, nothing is left uncommitted, the job table is the
    one the sequence started from with the last call's status, error and
    time written to that job alone; so the job's row is still there and its
    status and error are those of the last call. *)
Theorem mark_job_last_write_wins :
  forall (float : Type) (id : string) (calls : list (Z * string * option string))
         (t : Z) (s : string) (e : option string) (c : Conn (float := float)),
  exists c',
    reports id (calls ++ [(t, s, e)]) c = (Return tt, c')
    /\ txn c' = None
    /\ job (store c') = update_outcome id s e t (job (view c))
    /\ map job_id (job (store c')) = map job_id (job (view c))
    /\ (forall r, In r (job (store c')) -> job_id r = id ->
          job_status r = s /\ job_error r = e).
Proof.
  intros float id calls t s e c.
  destruct (reports_snoc id calls t s e c) as [c' [H1 [H2 H3]]].
  exists c'. split; [exact H1|]. split; [exact H2|].
  rewrite H3. cbn. split; [reflexivity|]. split.
  - apply update_outcome_ids.
  - intros r Hin Hid.
    destruct (update_outcome_hit _ _ _ _ _ _ Hin Hid) as [Hs [He _]]. auto.
Qed.

(* ------------------------------------------------------------------ *)
(** ** ensure_statements *)

Section EnsureStatements.

Context {float : Type}.
Implicit Types c : Conn (float := float).
Implicit Types d : Db (float := float).

Lemma has_statement_count filing_id ty d :
  has_statement filing_id ty d = negb (Nat.eqb (count_statements filing_id ty d) 0).
Proof.
  unfold has_statement, count_statements.
  induction (statement d) as [|s l IH]; cbn; [reflexivity|].
  destruct (is_statement filing_id ty s); cbn; [reflexivity|exact IH].
Qed.

Lemma count_statements_insert filing_id ty filing_id' ty' c :
  count_statements filing_id ty (view (insert_statement filing_id' ty' c))
  = (count_statements filing_id ty (view c)
     + if is_statement filing_id ty (mkStatement (seq_statement c) filing_id' ty' "en" "EUR")
       then 1 else 0)%nat.
Proof.
  unfold count_statements, insert_statement. cbn [view txn execute with_statement statement].
  rewrite filter_app, length_app. cbn [filter].
  destruct (is_statement filing_id ty _); reflexivity.
Qed.

Lemma ensure_one_count filing_id ty ty' c :
  count_statements filing_id ty (view (ensure_one filing_id ty' c))
  = (count_statements filing_id ty (view c)
     + if Nat.eqb (count_statements filing_id ty' (view c)) 0
       then (if (ty' =? ty)%string then 1 else 0) else 0)%nat.
Proof.
  unfold ensure_one. rewrite view_begin, has_statement_count.
  destruct (Nat.eqb (count_statements filing_id ty' (view c)) 0); cbn [negb].
  - rewrite count_statements_insert, view_begin. unfold is_statement.
    cbn [st_type st_filing_id]. rewrite Z.eqb_refl. reflexivity.
  - rewrite view_begin. lia.
Qed.

(** What one call does to the number of statements of a kind. *)
Lemma ensure_statements_count filing_id c :
  exists c',
    ensure_statements filing_id c = (Return tt, c')
    /\ txn c' = None /\ held c' = []
    /\ count_statements filing_id "balance_sheet" (store c')
       = Nat.max 1 (count_statements filing_id "balance_sheet" (view c))
    /\ count_statements filing_id "pnl" (store c')
       = Nat.max 1 (count_statements filing_id "pnl" (view c)).
Proof.
  exists (commit (ensure_one filing_id "pnl" (ensure_one filing_id "balance_sheet" c))).
  split; [reflexivity|]. split; [reflexivity|]. split; [reflexivity|].
  rewrite store_commit, !ensure_one_count.
  replace ("balance_sheet" =? "pnl")%string with false by reflexivity.
  replace ("pnl" =? "balance_sheet")%string with false by reflexivity.
  rewrite !String.eqb_refl.
  destruct (Nat.eqb_spec (count_statements filing_id "balance_sheet" (view c)) 0);
    destruct (Nat.eqb_spec (count_statements filing_id "pnl" (view c)) 0);
    cbn [Nat.eqb]; repeat match goal with |- context [Nat.eqb ?a 0] =>
                            destruct (Nat.eqb_spec a 0) end; split; lia.
Qed.

(** On a connection with nothing pending, a filing that has both statements
    is left as it is. *)
Lemma ensure_statements_noop filing_id c :
  txn c = None -> held c = [] ->
  (1 <= count_statements filing_id "balance_sheet" (store c))%nat ->
  (1 <= count_statements filing_id "pnl" (store c))%nat ->
  ensure_statements filing_id c = (Return tt, c).
Proof.
  intros Ht Hh B P. unfold ensure_statements.
  assert (V : view c = store c) by (unfold view; rewrite Ht; reflexivity).
  rewrite !view_begin, (has_statement_count filing_id "balance_sheet"), V.
  destruct (Nat.eqb_spec (count_statements filing_id "balance_sheet" (store c)) 0) as [E|_];
    [lia|]. cbn [negb].
  rewrite !view_begin, (has_statement_count filing_id "pnl"), V.
  destruct (Nat.eqb_spec (count_statements filing_id "pnl" (store c)) 0) as [E|_];
    [lia|]. cbn [negb].
  destruct c as [st tx he ot s1 s2 s3 ck]. cbn in Ht, Hh. subst tx he. reflexivity.
Qed.

End EnsureStatements.

(** C5: [ensure_statements] is idempotent: for a filing that has at most
    one statement of each kind (counting what the connection has pending),
    one or more calls in a row return and leave exactly one [balance_sheet]
    and exactly one [pnl] statement committed for it, and every call after
    the first changes nothing, neither the tables nor the connection. *)
Theorem ensure_statements_idempotent :
  forall (float : Type) (filing_id : Z) (n : nat) (c : Conn (float := float)),
    (count_statements filing_id "balance_sheet" (view c) <= 1)%nat ->
    (count_statements filing_id "pnl" (view c) <= 1)%nat ->
    exists c',
      ensure_statements filing_id c = (Return tt, c')
      /\ ensure_times (S n) filing_id c = (Return tt, c')
      /\ ensure_statements filing_id c' = (Return tt, c')
      /\ count_statements filing_id "balance_sheet" (store c') = 1%nat
      /\ count_statements filing_id "pnl" (store c') = 1%nat.
Proof.
  intros float filing_id n c B P.
  destruct (ensure_statements_count filing_id c) as [c' [H [Ht [Hh [HB HP]]]]].
  assert (N : ensure_statements filing_id c' = (Return tt, c'))
    by (apply ensure_statements_noop; [exact Ht|exact Hh|lia|lia]).
  exists c'. split; [exact H|]. split; [|split; [exact N|split; lia]].
  cbn [ensure_times]. unfold bind at 1. rewrite H.
  clear H. induction n as [|n IH]; [reflexivity|].
  cbn [ensure_times]. unfold bind at 1. rewrite N. exact IH.
Qed.

Lemma ensure_statements_idempotent_witness :
  exists c',
    ensure_statements 7 (Sample.fresh [] []) = (Return tt, c')
    /\ ensure_times 3 7 (Sample.fresh [] []) = (Return tt, c')
    /\ ensure_statements 7 c' = (Return tt, c')
    /\ count_statements 7 "balance_sheet" (store c') = 1%nat
    /\ count_statements 7 "pnl" (store c') = 1%nat.
Proof.
  apply (ensure_statements_idempotent Q 7 2 (Sample.fresh [] [])); cbn; lia.
Defined.

(* ------------------------------------------------------------------ *)
(** ** fetch_one_job *)

Section Select.

Variable tie : list JobRow -> nat.

Lemma mem_id_In id l : mem_id id l = true <-> In id l.
Proof.
  unfold mem_id. rewrite existsb_exists. split.
  - intros [x [Hx E]]. apply String.eqb_eq in E. subst. exact Hx.
  - intro H. exists id. split; [exact H|apply String.eqb_refl].
Qed.

Lemma queued_unlocked_spec skip r :
  queued_unlocked skip r = true <-> job_status r = "queued" /\ ~ In (job_id r) skip.
Proof.
  unfold queued_unlocked. rewrite andb_true_iff, negb_true_iff, String.eqb_eq.
  rewrite <- mem_id_In. destruct (mem_id (job_id r) skip); intuition congruence.
Qed.

Lemma oldest_spec l r :
  In r (oldest l) <->
  In r l /\ forall r', In r' l -> job_created_at r <= job_created_at r'.
Proof.
  unfold oldest. rewrite filter_In, forallb_forall.
  split; intros [H1 H2]; (split; [exact H1|]); intros r' Hr'.
  - apply Z.leb_le, H2, Hr'.
  - apply Z.leb_le, H2, Hr'.
Qed.

(** A non-empty list of rows has an oldest one. *)
Lemma has_oldest (l : list JobRow) :
  l <> [] -> exists r, In r (oldest l).
Proof.
  intro Hne.
  assert (E : exists r, In r l /\ forall r', In r' l -> job_created_at r <= job_created_at r').
  { induction l as [|a l IH]; [congruence|].
    destruct l as [|b l].
    - exists a. split; [left; reflexivity|]. intros r' [<-|[]]. lia.
    - destruct IH as [m [Hm Hmin]]; [discriminate|].
      destruct (Z_le_gt_dec (job_created_at a) (job_created_at m)) as [Hle|Hgt].
      + exists a. split; [left; reflexivity|]. intros r' [<-|Hr']; [lia|].
        specialize (Hmin r' Hr'). lia.
      + exists m. split; [right; exact Hm|]. intros r' [<-|Hr']; [lia|].
        apply Hmin, Hr'. }
  destruct E as [r Hr]. exists r. apply oldest_spec, Hr.
Qed.

Lemma choose_In l r : choose tie l = Some r -> In r l.
Proof. unfold choose. apply nth_error_In. Qed.

Lemma choose_None l : choose tie l = None -> l = [].
Proof.
  unfold choose. intro H. destruct l as [|a l]; [reflexivity|].
  apply nth_error_None in H.
  pose proof (Nat.mod_upper_bound (tie (a :: l)) (List.length (a :: l))) as B.
  cbn [List.length] in *. lia.
Qed.

(** The row the SELECT returns is queued, not locked elsewhere, and no such
    row is older. *)
Lemma select_Some rows skip r :
  select_for_update_skip_locked tie rows skip = Some r ->
  In r rows /\ job_status r = "queued" /\ ~ In (job_id r) skip
  /\ forall r', In r' rows -> job_status r' = "queued" -> ~ In (job_id r') skip ->
                job_created_at r <= job_created_at r'.
Proof.
  unfold select_for_update_skip_locked. intro H.
  apply choose_In, oldest_spec in H. destruct H as [Hin Hmin].
  apply filter_In in Hin. destruct Hin as [Hin Hq].
  apply queued_unlocked_spec in Hq. destruct Hq as [Hq Hl].
  repeat split; try assumption.
  intros r' Hr' Hq' Hl'. apply Hmin, filter_In. split; [exact Hr'|].
  apply queued_unlocked_spec. split; assumption.
Qed.

(** It returns nothing only when every queued row is locked elsewhere. *)
Lemma select_None rows skip :
  select_for_update_skip_locked tie rows skip = None ->
  forall r, In r rows -> job_status r = "queued" -> In (job_id r) skip.
Proof.
  unfold select_for_update_skip_locked. intros H r Hr Hq.
  apply choose_None in H.
  destruct (filter (queued_unlocked skip) rows) as [|a l] eqn:F.
  - destruct (mem_id (job_id r) skip) eqn:M; [apply mem_id_In, M|].
    assert (In r (filter (queued_unlocked skip) rows)) as Hin.
    { apply filter_In. split; [exact Hr|]. unfold queued_unlocked.
      rewrite M. apply String.eqb_eq in Hq. rewrite Hq. reflexivity. }
    rewrite F in Hin. destruct Hin.
  - destruct (has_oldest (a :: l)) as [m Hm]; [discriminate|].
    rewrite H in Hm. destruct Hm.
Qed.

End Select.

Section FetchOneJob.

Context {float : Type}.
Variable tie : list JobRow -> nat.
Implicit Types c : Conn (float := float).

(** The cursor stands on the result of [BEGIN]: [fetchone] raises whatever
    the SELECT found. *)
Lemma fetchone_lease_results row : fetchone (lease_results row) = Raise NoResult.
Proof. reflexivity. Qed.

Lemma fetch_one_job_raises c :
  fetch_one_job tie c = (Raise NoResult, snd (execute_lease tie c)).
Proof.
  unfold fetch_one_job, execute_lease. rewrite fetchone_lease_results. reflexivity.
Qed.

Lemma execute_lease_frame c :
  store (snd (execute_lease tie c)) = store c
  /\ view (snd (execute_lease tie c)) = view c
  /\ others (snd (execute_lease tie c)) = others c
  /\ held (snd (execute_lease tie c))
     = match select_for_update_skip_locked tie (job (view c)) (others c) with
       | Some row => job_id row :: held c
       | None => held c
       end.
Proof.
  unfold execute_lease. rewrite view_begin. cbn [snd others begin execute].
  destruct (select_for_update_skip_locked tie (job (view c)) (others c));
    repeat split.
Qed.

End FetchOneJob.

(** C4, evaluated on the code: [fetch_one_job] returns neither a payload nor
    [None].  The text it executes is [BEGIN;] followed by the SELECT, so the
    cursor holds two results and [cur.fetchone()] reads the first, which has
    no rows: ProgrammingError, on every call, with or without a queued job.
    The SELECT has run by then, and has locked the oldest queued row no other
    transaction holds; nothing is updated and nothing committed, so that row
    stays [queued].  On a table whose one job [j1] is queued, and on an empty
    table, the call raises where the claim has it return the job, or
    nothing. *)
Theorem fetch_one_job_never_returns :
  (forall (float : Type) (tie : list JobRow -> nat) (c : Conn (float := float)),
     exists c',
       fetch_one_job tie c = (Raise NoResult, c')
       /\ store c' = store c
       /\ view c' = view c
       /\ held c' = match select_for_update_skip_locked tie (job (view c)) (others c) with
                    | Some row => job_id row :: held c
                    | None => held c
                    end)
  /\ (exists c',
        fetch_one_job Sample.tie_first (Sample.fresh [Sample.queued_job "j1" 1] [])
        = (Raise NoResult, c')
        /\ job (view c') = [Sample.queued_job "j1" 1]
        /\ held c' = ["j1"])
  /\ (exists c',
        fetch_one_job Sample.tie_first (Sample.fresh [] [])
        = (Raise NoResult, c')
        /\ job (view c') = []).
Proof.
  split; [|split].
  - intros float tie c. exists (snd (execute_lease tie c)).
    split; [apply fetch_one_job_raises|].
    destruct (execute_lease_frame tie c) as (a & b & _ & d).
    repeat split; assumption.
  - eexists. split; [reflexivity|]. split; reflexivity.
  - eexists. split; [reflexivity|]. reflexivity.
Qed.

(* ------------------------------------------------------------------ *)
(** ** insert_lines *)

Section InsertLines.

Context {float : Type}.
Implicit Types c : Conn (float := float).
Implicit Types d : Db (float := float).
Implicit Types anchors : list (AnchorIn (float := float)).
Implicit Types lines : list (LineIn (float := float)).
Implicit Types line : LineIn (float := float).

Lemma grows_refl c : grows c c [] [] [].
Proof.
  unfold grows. rewrite !app_nil_r. cbn. rewrite !Z.add_0_r. repeat split.
Qed.

Lemma grows_trans c c1 c2 A L K A' L' K' :
  grows c c1 A L K -> grows c1 c2 A' L' K' -> grows c c2 (A ++ A') (L ++ L') (K ++ K').
Proof.
  unfold grows. intros H1 H2.
  destruct H1 as (a1 & a2 & a3 & a4 & a5 & a6 & a7 & a8 & a9 & a10 & a11 & a12).
  destruct H2 as (b1 & b2 & b3 & b4 & b5 & b6 & b7 & b8 & b9 & b10 & b11 & b12).
  rewrite !length_app, !Nat2Z.inj_add, !app_assoc.
  repeat split; try congruence; lia.
Qed.

Lemma grows_anchor filing_id anc c :
  grows c (snd (insert_anchor filing_id anc c))
        [anchor_row filing_id (seq_anchor c) anc] [] [].
Proof.
  unfold grows, insert_anchor. cbn. rewrite !app_nil_r, Z.add_0_r. repeat split.
Qed.

Lemma grows_begin c : grows c (begin c) [] [] [].
Proof.
  unfold grows. cbn. rewrite !app_nil_r, !Z.add_0_r. repeat split.
Qed.

(** The first loop: ids are captured in the order of [anchors]. *)
Lemma insert_anchors_spec filing_id anchors acc c :
  fst (insert_anchors filing_id anchors acc c)
  = acc ++ ids_from (seq_anchor c) (List.length anchors)
  /\ grows c (snd (insert_anchors filing_id anchors acc c))
           (anchor_rows filing_id (seq_anchor c) anchors) [] [].
Proof.
  revert acc c. induction anchors as [|anc rest IH]; intros acc c.
  - cbn. rewrite app_nil_r. split; [reflexivity|apply grows_refl].
  - cbn [insert_anchors List.length ids_from anchor_rows].
    pose proof (grows_anchor filing_id anc c) as G.
    destruct (insert_anchor filing_id anc c) as [id c1] eqn:E.
    assert (Hid : id = seq_anchor c) by (unfold insert_anchor in E; congruence).
    cbn [snd] in G. subst id.
    assert (Hs : seq_anchor c1 = seq_anchor c + 1).
    { destruct G as (_ & _ & _ & _ & _ & _ & _ & _ & _ & _ & G & _). exact G. }
    destruct (IH (acc ++ [seq_anchor c]) c1) as [F G1]. rewrite F, Hs. split.
    + rewrite <- app_assoc. reflexivity.
    + rewrite Hs in G1.
      exact (grows_trans _ _ _ _ _ _ _ _ _ G G1).
Qed.

(** The text of the INSERT of a line has eight placeholders, the tuple
    passed with it nine values. *)
Lemma placeholders_statement_line : placeholders INSERT_STATEMENT_LINE = 8%nat.
Proof. reflexivity. Qed.

Lemma length_line_params filing_id line :
  List.length (line_params filing_id line) = 9%nat.
Proof. reflexivity. Qed.

Lemma placeholder_mismatch_8_9 :
  placeholder_mismatch 8 9 = "the query has 8 placeholders but 9 parameters were passed".
Proof. reflexivity. Qed.

(** So the INSERT of a line raises, whatever the line. *)
Lemma insert_line_raises filing_id line c :
  insert_line filing_id line c
  = (Raise "the query has 8 placeholders but 9 parameters were passed", begin c).
Proof. reflexivity. Qed.

(** The second loop ends at its first line. *)
Lemma insert_each_line_raises filing_id anc_ids line lines c :
  insert_each_line filing_id anc_ids (line :: lines) c
  = (Raise "the query has 8 placeholders but 9 parameters were passed", begin c).
Proof. reflexivity. Qed.

(** [insert_lines] with a line to insert: every anchor is inserted, then
    the first INSERT of a line raises; the commit is not reached. *)
Lemma insert_lines_raises filing_id line lines anchors c :
  insert_lines filing_id (line :: lines) anchors c
  = (Raise "the query has 8 placeholders but 9 parameters were passed",
     begin (snd (insert_anchors filing_id anchors [] c))).
Proof.
  unfold insert_lines. destruct (insert_anchors filing_id anchors [] c) as [ids c1].
  reflexivity.
Qed.

(** [insert_lines] without lines: the anchors are inserted and committed. *)
Lemma insert_lines_no_line filing_id anchors c :
  insert_lines filing_id [] anchors c
  = (Return tt, commit (snd (insert_anchors filing_id anchors [] c))).
Proof.
  unfold insert_lines. destruct (insert_anchors filing_id anchors [] c) as [ids c1].
  reflexivity.
Qed.

(** What the transaction holds when [insert_lines] raises. *)
Lemma insert_lines_raises_grows filing_id anchors c :
  grows c (begin (snd (insert_anchors filing_id anchors [] c)))
        (anchor_rows filing_id (seq_anchor c) anchors) [] [].
Proof.
  destruct (insert_anchors_spec filing_id anchors [] c) as [_ G].
  pose proof (grows_trans _ _ _ _ _ _ _ _ _ G
                (grows_begin (snd (insert_anchors filing_id anchors [] c)))) as G'.
  rewrite app_nil_r in G'. exact G'.
Qed.

End InsertLines.

Section Positions.

Context {float : Type}.

Lemma length_ids_from first n : List.length (ids_from first n) = n.
Proof.
  revert first. induction n as [|n IH]; intro first; cbn; [reflexivity|].
  rewrite IH. reflexivity.
Qed.

Lemma nth_ids_from first n i :
  (i < n)%nat -> nth_error (ids_from first n) i = Some (first + Z.of_nat i).
Proof.
  revert first i. induction n as [|n IH]; intros first i Hi; [lia|].
  destruct i as [|i]; cbn [ids_from nth_error].
  - rewrite Z.add_0_r. reflexivity.
  - rewrite IH by lia. f_equal. lia.
Qed.

(** A declared index within range is looked up at its own position. *)
Lemma py_index_ids_from first n idx :
  0 <= idx < Z.of_nat n -> py_index (ids_from first n) idx = Some (first + idx).
Proof.
  intro H. unfold py_index. rewrite length_ids_from.
  destruct (Z.leb_spec 0 idx); [|lia]. destruct (Z.ltb_spec idx (Z.of_nat n)); [|lia].
  cbn [andb]. rewrite nth_ids_from by lia. f_equal. lia.
Qed.

End Positions.

(** C6, evaluated on the code: [insert_lines] inserts the anchors first and
    captures their ids in the order of the input, the k-th anchor receiving
    the k-th id the sequence hands out; but it never creates a link.  The
    INSERT of a line, which comes before the links of that line, passes nine
    values to a text with eight placeholders and raises ProgrammingError for
    every line, so [anc_ids[idx]] is never evaluated: with a line to insert
    the call raises, with none it returns, and either way the transaction
    holds the new anchors, no new line and no new link.  Given the anchors
    [A0, A1] and a line declaring [[1]], the two anchors are inserted with ids
    1 and 2, the call raises, and no link to [A1], or to any anchor, is
    made. *)
Theorem insert_lines_stores_no_link :
  (forall (float : Type) (filing_id : Z) (lines : list (LineIn (float := float)))
          (anchors : list (AnchorIn (float := float))) (c : Conn (float := float)),
     exists c',
       insert_lines filing_id lines anchors c
       = (match lines with
          | [] => Return tt
          | _ :: _ => Raise "the query has 8 placeholders but 9 parameters were passed"
          end, c')
       /\ fst (insert_anchors filing_id anchors [] c)
          = ids_from (seq_anchor c) (List.length anchors)
       /\ anchor (view c')
          = anchor (view c) ++ anchor_rows filing_id (seq_anchor c) anchors
       /\ statement_line (view c') = statement_line (view c)
       /\ datum_anchor (view c') = datum_anchor (view c))
  /\ (exists c',
        insert_lines 7 [SampleLines.line [1]] [SampleLines.A0; SampleLines.A1]
                     SampleRun.conn
        = (Raise "the query has 8 placeholders but 9 parameters were passed", c')
        /\ anchor (view c')
           = [mkAnchorRow 1 7 "text" 3 SampleLines.box "Total assets 12 345";
              mkAnchorRow 2 7 "text" 4 SampleLines.box "Total equity 12 345"]
        /\ statement_line (view c') = []
        /\ datum_anchor (view c') = []
        /\ store c' = store SampleRun.conn).
Proof.
  split.
  - intros float filing_id lines anchors c.
    destruct (insert_anchors_spec filing_id anchors [] c) as [F G].
    destruct lines as [|line rest].
    + exists (commit (snd (insert_anchors filing_id anchors [] c))).
      split; [apply insert_lines_no_line|]. split; [exact F|].
      rewrite view_commit.
      destruct G as (_ & _ & _ & _ & _ & _ & _ & g8 & g9 & g10 & _).
      rewrite app_nil_r in g9, g10. repeat split; assumption.
    + exists (begin (snd (insert_anchors filing_id anchors [] c))).
      split; [apply insert_lines_raises|]. split; [exact F|].
      destruct (insert_lines_raises_grows filing_id anchors c)
        as (_ & _ & _ & _ & _ & _ & _ & g8 & g9 & g10 & _).
      rewrite app_nil_r in g9, g10. repeat split; assumption.
  - eexists. split; [reflexivity|]. repeat split.
Qed.

(* ------------------------------------------------------------------ *)
(** ** parse_mvp *)

Section Parser.

Context {float : Type}.
Variable re_search : string -> string -> bool.
Variable re_findall : string -> string -> list string.
Variable py_float : string -> option float.
Implicit Types anchors : list (AnchorIn (float := float)).
Implicit Types lines : list (LineIn (float := float)).

Lemma find_from_In i (blocks : list (TextBlock (float := float))) pats j blk :
  find_from re_search i blocks pats = Some (j, blk) -> In blk blocks.
Proof.
  revert i. induction blocks as [|b rest IH]; intros i H; [discriminate H|].
  cbn [find_from] in H.
  destruct (existsb (fun pat => re_search pat (tb_text b)) pats).
  - injection H as _ <-. left; reflexivity.
  - right. exact (IH _ H).
Qed.

Lemma extract_from_page pno (pages : list (Page (float := float))) blk :
  In blk (extract_from pno pages) ->
  (pno <= tb_page blk < pno + List.length pages)%nat.
Proof.
  revert pno. induction pages as [|p rest IH]; intros pno H; [destruct H|].
  cbn [extract_from] in H. apply in_app_or in H. destruct H as [H|H].
  - apply in_map_iff in H. destruct H as [b [<- _]]. cbn. lia.
  - apply IH in H. cbn [List.length]. lia.
Qed.

(** The block [find_first] returns lies on a page of the document. *)
Lemma find_first_page (doc : Doc (float := float)) pats i blk :
  find_first re_search doc pats = Some (i, blk) ->
  exists page, nth_error doc (tb_page blk) = Some page.
Proof.
  unfold find_first, extract_text_blocks. intro H.
  apply find_from_In, extract_from_page in H.
  destruct (nth_error doc (tb_page blk)) as [page|] eqn:E; [exists page; reflexivity|].
  apply nth_error_None in E. lia.
Qed.

Lemma engine_shape_snoc anchors lines anc statement_type ref_code caption side period value :
  engine_shape anchors lines ->
  engine_shape (anchors ++ [anc])
    (lines ++ [StatementLine statement_type ref_code caption side period value
                 [Z.of_nat (List.length anchors)]]).
Proof.
  intros [Hlen Hk]. split.
  - rewrite !length_app. cbn. lia.
  - intros k line E.
    destruct (Nat.lt_ge_cases k (List.length lines)) as [Hlt|Hge].
    + rewrite nth_error_app1 in E by exact Hlt. exact (Hk k line E).
    + rewrite nth_error_app2 in E by exact Hge.
      destruct (k - List.length lines)%nat as [|m] eqn:D.
      * cbn in E. injection E as <-. cbn. split; [|reflexivity].
        do 3 f_equal. lia.
      * cbn in E. destruct m; discriminate E.
Qed.

(** The loop returns and keeps the shape, whatever the document. *)
Lemma parse_loop_shape (doc : Doc (float := float)) items anchors lines :
  (forall key pats, In (key, pats) items -> caption_map key <> None) ->
  engine_shape anchors lines ->
  exists r, parse_loop re_search re_findall py_float doc items anchors lines = Return r
            /\ engine_shape (r_anchors r) (r_lines r).
Proof.
  revert anchors lines. induction items as [|[key pats] rest IH];
    intros anchors lines Hkeys Hshape.
  - eexists. split; [reflexivity|exact Hshape].
  - assert (Hrest : forall k p, In (k, p) rest -> caption_map k <> None)
      by (intros k p Hin; apply (Hkeys k p); right; exact Hin).
    cbn [parse_loop].
    destruct (find_first re_search doc pats) as [[i blk]|] eqn:F;
      [|exact (IH anchors lines Hrest Hshape)].
    destruct (find_first_page doc pats i blk F) as [page ->].
    destruct (caption_map key) as [[caption side]|] eqn:C;
      [|exfalso; apply (Hkeys key pats); [left; reflexivity|exact C]].
    apply IH; [exact Hrest|]. apply engine_shape_snoc, Hshape.
Qed.

Lemma CAPTIONS_keys key pats : In (key, pats) CAPTIONS -> caption_map key <> None.
Proof.
  intros [H|[H|[]]]; injection H as <- _; discriminate.
Qed.

Lemma parse_mvp_shape (doc : Doc (float := float)) :
  exists r, parse_mvp re_search re_findall py_float doc = Return r
            /\ engine_shape (r_anchors r) (r_lines r).
Proof.
  apply parse_loop_shape; [exact CAPTIONS_keys|].
  split; [reflexivity|]. intros [|k] line E; discriminate E.
Qed.

End Parser.

(** C9: every line the engine emits declares exactly one anchor index, the
    line at position [k] the index [k], which is a position of the returned
    anchors; lines at different positions declare different indices; and on
    the ids [insert_lines] captures for the engine's anchors, the lookup
    [anc_ids[idx]] of a declared index is in range: it yields the id given
    to the anchor at the line's own position.  [parse_mvp] itself returns for
    every document, whatever [re] and [float] compute. *)
Theorem parse_mvp_indices_in_range :
  forall (float : Type) (re_search : string -> string -> bool)
         (re_findall : string -> string -> list string)
         (py_float : string -> option float) (doc : Doc (float := float)),
  exists r,
    parse_mvp re_search re_findall py_float doc = Return r
    /\ List.length (r_anchors r) = List.length (r_lines r)
    /\ (forall k line, nth_error (r_lines r) k = Some line ->
          l_anchor_indices line = Some [Z.of_nat k]
          /\ 0 <= Z.of_nat k < Z.of_nat (List.length (r_anchors r)))
    /\ (forall j k lj lk, nth_error (r_lines r) j = Some lj ->
          nth_error (r_lines r) k = Some lk -> j <> k ->
          indices_of lj <> indices_of lk)
    /\ (forall filing_id (c : Conn (float := float)) k line idx,
          nth_error (r_lines r) k = Some line -> In idx (indices_of line) ->
          py_index (fst (insert_anchors filing_id (r_anchors r) [] c)) idx
          = Some (seq_anchor c + Z.of_nat k)).
Proof.
  intros float re_search re_findall py_float doc.
  destruct (parse_mvp_shape re_search re_findall py_float doc) as [r [R [Hlen Hk]]].
  exists r. split; [exact R|]. split; [exact Hlen|].
  assert (Hrange : forall k line, nth_error (r_lines r) k = Some line ->
            l_anchor_indices line = Some [Z.of_nat k]
            /\ 0 <= Z.of_nat k < Z.of_nat (List.length (r_anchors r))).
  { intros k line E. split; [apply (Hk k line E)|].
    assert (k < List.length (r_lines r))%nat
      by (apply nth_error_Some; rewrite E; discriminate).
    lia. }
  split; [exact Hrange|]. split.
  - intros j k lj lk Ej Ek Hne. unfold indices_of.
    destruct (Hk j lj Ej) as [-> _]. destruct (Hk k lk Ek) as [-> _].
    intro H. injection H as H. apply Hne. lia.
  - intros filing_id c k line idx E Hidx.
    destruct (Hrange k line E) as [Hi Hr]. unfold indices_of in Hidx.
    rewrite Hi in Hidx. destruct Hidx as [<-|[]].
    destruct (insert_anchors_spec filing_id (r_anchors r) [] c) as [F _].
    rewrite F. cbn [app]. apply py_index_ids_from, Hr.
Qed.

(** A caption found next to a token [float] rejects gives the same
    combination. *)
Lemma parse_mvp_rejected_number :
  option_map (fun r => map (fun l => (l_status l, l_value l)) (r_lines r))
    (match parse_mvp Re.re_search Re.re_findall Float.py_float
             SampleDocs.caption_bad_number with
     | Return r => Some r
     | Raise _ => None
     end)
  = Some [(Some "extracted", None)].
Proof. vm_compute. reflexivity. Qed.

(** A caption with its figure: the value is read. *)
Lemma parse_mvp_reads_number :
  option_map (fun r => map (fun l => (l_status l, l_value l, l_anchor_indices l)) (r_lines r))
    (match parse_mvp Re.re_search Re.re_findall Float.py_float
             SampleDocs.caption_number with
     | Return r => Some r
     | Raise _ => None
     end)
  = Some [(Some "extracted", Some (Qmake 12345 1), Some [0])].
Proof. vm_compute. reflexivity. Qed.

(** C10: the engine never lowers the status of a line from the model's
    default [extracted], and there is a document, a caption with no figure on
    its page, for which it emits a line with status [extracted] and no
    value. *)
Theorem parse_mvp_extracted_without_value :
  (forall (float : Type) (re_search : string -> string -> bool)
          (re_findall : string -> string -> list string)
          (py_float : string -> option float) (doc : Doc (float := float)),
   exists r,
     parse_mvp re_search re_findall py_float doc = Return r
     /\ forall line, In line (r_lines r) -> l_status line = Some "extracted")
  /\ exists r line,
       parse_mvp Re.re_search Re.re_findall Float.py_float SampleDocs.caption_only
       = Return r
       /\ In line (r_lines r)
       /\ l_status line = Some "extracted" /\ l_value line = None.
Proof.
  split.
  - intros float re_search re_findall py_float doc.
    destruct (parse_mvp_shape re_search re_findall py_float doc) as [r [R [_ Hk]]].
    exists r. split; [exact R|]. intros line Hin.
    apply In_nth_error in Hin. destruct Hin as [k E]. apply (Hk k line E).
  - eexists. eexists. split; [vm_compute; reflexivity|].
    split; [left; reflexivity|]. split; reflexivity.
Qed.

(* ------------------------------------------------------------------ *)
(** ** The try statement of main *)

Section EnsureFrame.

Context {float : Type}.
Implicit Types c : Conn (float := float).

Lemma ensure_one_frame filing_id ty c :
  job (view (ensure_one filing_id ty c)) = job (view c)
  /\ statement_line (view (ensure_one filing_id ty c)) = statement_line (view c)
  /\ anchor (view (ensure_one filing_id ty c)) = anchor (view c)
  /\ datum_anchor (view (ensure_one filing_id ty c)) = datum_anchor (view c)
  /\ clock (ensure_one filing_id ty c) = clock c
  /\ seq_line (ensure_one filing_id ty c) = seq_line c
  /\ seq_anchor (ensure_one filing_id ty c) = seq_anchor c.
Proof.
  unfold ensure_one. destruct (has_statement filing_id ty (view (begin c)));
    cbn; repeat split.
Qed.

(** [ensure_statements] returns, commits, and touches the statement table
    only, where both kinds are then present. *)
Lemma ensure_statements_frame filing_id c :
  exists c',
    ensure_statements filing_id c = (Return tt, c')
    /\ txn c' = None
    /\ job (store c') = job (view c)
    /\ statement_line (store c') = statement_line (view c)
    /\ anchor (store c') = anchor (view c)
    /\ datum_anchor (store c') = datum_anchor (view c)
    /\ clock c' = clock c
    /\ has_statement filing_id "balance_sheet" (store c') = true
    /\ has_statement filing_id "pnl" (store c') = true
    /\ count_statements filing_id "balance_sheet" (store c')
       = Nat.max 1 (count_statements filing_id "balance_sheet" (view c))
    /\ count_statements filing_id "pnl" (store c')
       = Nat.max 1 (count_statements filing_id "pnl" (view c)).
Proof.
  destruct (ensure_statements_count filing_id c) as (c' & R & Ht & _ & HB & HP).
  exists c'. split; [exact R|]. split; [exact Ht|].
  assert (E : c' = commit (ensure_one filing_id "pnl" (ensure_one filing_id "balance_sheet" c)))
    by (unfold ensure_statements in R; injection R as <-; reflexivity).
  destruct (ensure_one_frame filing_id "balance_sheet" c)
    as (a1 & a2 & a3 & a4 & a5 & _).
  destruct (ensure_one_frame filing_id "pnl" (ensure_one filing_id "balance_sheet" c))
    as (b1 & b2 & b3 & b4 & b5 & _).
  rewrite !has_statement_count, HB, HP.
  subst c'. rewrite store_commit.
  repeat split; try congruence.
  - cbn [clock commit]. congruence.
  - destruct (count_statements filing_id "balance_sheet" (view c)); reflexivity.
  - destruct (count_statements filing_id "pnl" (view c)); reflexivity.
Qed.

End EnsureFrame.

(** C8: when retrieval succeeds and the engine returns no line and no
    anchor, the try statement of [main] returns normally: both statement
    containers of the filing exist afterwards, no line, anchor or link has
    been added, and the job's row carries status [succeeded] and no error;
    everything is committed. *)
Theorem process_empty_extraction_succeeds :
  forall (float : Type) (re_search : string -> string -> bool)
         (re_findall : string -> string -> list string)
         (py_float : string -> option float)
         (SUPABASE_URL SERVICE_KEY BUCKET : string)
         (requests_get : string -> string -> outcome (Doc (float := float)))
         (j : Payload) (doc : Doc (float := float)) (c : Conn (float := float)),
    download_pdf SUPABASE_URL SERVICE_KEY BUCKET requests_get (p_storage_path j)
    = Return doc ->
    parse_mvp re_search re_findall py_float doc = Return (mkResult [] []) ->
    exists c',
      process re_search re_findall py_float SUPABASE_URL SERVICE_KEY BUCKET
              requests_get j c = (Return tt, c')
      /\ txn c' = None
      /\ has_statement (p_filing_id j) "balance_sheet" (store c') = true
      /\ has_statement (p_filing_id j) "pnl" (store c') = true
      /\ statement_line (store c') = statement_line (view c)
      /\ anchor (store c') = anchor (view c)
      /\ datum_anchor (store c') = datum_anchor (view c)
      /\ job (store c') = update_outcome (p_id j) "succeeded" None (clock c) (job (view c))
      /\ (forall r, In r (job (store c')) -> job_id r = p_id j ->
            job_status r = "succeeded" /\ job_error r = None).
Proof.
  intros float re_search re_findall py_float SUPABASE_URL SERVICE_KEY BUCKET
         requests_get j doc c Hd Hp.
  destruct (ensure_statements_frame (p_filing_id j) c)
    as (c1 & R & Ht & e1 & e2 & e3 & e4 & e5 & e6 & e7 & _).
  assert (V : view c1 = store c1) by (unfold view; rewrite Ht; reflexivity).
  exists (commit (execute (with_job (update_outcome (p_id j) "succeeded" None
                                        (clock (commit c1)))) (commit c1))).
  split.
  - unfold process, try_except, bind, lift. rewrite R, Hd, Hp. reflexivity.
  - split; [reflexivity|].
    rewrite store_commit, view_execute, view_commit, V.
    unfold with_job. cbn [job statement statement_line anchor datum_anchor clock commit].
    unfold has_statement in *. cbn [statement].
    rewrite e1, e5.
    split; [exact e6|]. split; [exact e7|]. split; [exact e2|]. split; [exact e3|].
    split; [exact e4|]. split; [reflexivity|].
    intros r Hin Hid.
    destruct (update_outcome_hit _ _ _ _ _ _ Hin Hid) as (Hs & He & _). split; assumption.
Qed.

Lemma process_empty_extraction_succeeds_witness :
  exists c',
    SampleRun.process_with (SampleRun.storage_of SampleDocs.no_caption)
      (payload_of SampleRun.leased_job) SampleRun.conn = (Return tt, c')
    /\ txn c' = None
    /\ has_statement 7 "balance_sheet" (store c') = true
    /\ has_statement 7 "pnl" (store c') = true
    /\ statement_line (store c') = []
    /\ anchor (store c') = []
    /\ datum_anchor (store c') = []
    /\ job (store c') = update_outcome "j1" "succeeded" None 100 [SampleRun.leased_job]
    /\ (forall r, In r (job (store c')) -> job_id r = "j1" ->
          job_status r = "succeeded" /\ job_error r = None).
Proof.
  apply (process_empty_extraction_succeeds Q Re.re_search Re.re_findall Float.py_float
           "https://project.supabase.co" "service-key" "filings"
           (SampleRun.storage_of SampleDocs.no_caption)
           (payload_of SampleRun.leased_job) SampleDocs.no_caption SampleRun.conn).
  - reflexivity.
  - vm_compute. reflexivity.
Defined.

(** C3 (as amended): when retrieval raises, the try statement of [main]
    still returns normally: the job's row carries status [failed] and the
    text of the retrieval exception as its error; no line, anchor or link has
    been added; but the statement containers were ensured before retrieval
    was tried, so the filing has its [balance_sheet] and [pnl] statements
    afterwards, created by this run where they were missing. *)
Theorem process_retrieval_failure :
  forall (float : Type) (re_search : string -> string -> bool)
         (re_findall : string -> string -> list string)
         (py_float : string -> option float)
         (SUPABASE_URL SERVICE_KEY BUCKET : string)
         (requests_get : string -> string -> outcome (Doc (float := float)))
         (j : Payload) (msg : string) (c : Conn (float := float)),
    download_pdf SUPABASE_URL SERVICE_KEY BUCKET requests_get (p_storage_path j)
    = Raise msg ->
    exists c',
      process re_search re_findall py_float SUPABASE_URL SERVICE_KEY BUCKET
              requests_get j c = (Return tt, c')
      /\ txn c' = None
      /\ job (store c') = update_outcome (p_id j) "failed" (Some msg) (clock c) (job (view c))
      /\ (forall r, In r (job (store c')) -> job_id r = p_id j ->
            job_status r = "failed" /\ job_error r = Some msg)
      /\ statement_line (store c') = statement_line (view c)
      /\ anchor (store c') = anchor (view c)
      /\ datum_anchor (store c') = datum_anchor (view c)
      /\ count_statements (p_filing_id j) "balance_sheet" (store c')
         = Nat.max 1 (count_statements (p_filing_id j) "balance_sheet" (view c))
      /\ count_statements (p_filing_id j) "pnl" (store c')
         = Nat.max 1 (count_statements (p_filing_id j) "pnl" (view c)).
Proof.
  intros float re_search re_findall py_float SUPABASE_URL SERVICE_KEY BUCKET
         requests_get j msg c Hd.
  destruct (ensure_statements_frame (p_filing_id j) c)
    as (c1 & R & Ht & e1 & e2 & e3 & e4 & e5 & _ & _ & e8 & e9).
  assert (V : view c1 = store c1) by (unfold view; rewrite Ht; reflexivity).
  exists (commit (execute (with_job (update_outcome (p_id j) "failed" (Some msg)
                                        (clock c1))) c1)).
  split.
  - unfold process, try_except, bind, lift. rewrite R, Hd. reflexivity.
  - split; [reflexivity|].
    rewrite store_commit, view_execute, V.
    unfold with_job, count_statements in *.
    cbn [job statement statement_line anchor datum_anchor].
    rewrite e1, e5.
    split; [reflexivity|]. split.
    { intros r Hin Hid.
      destruct (update_outcome_hit _ _ _ _ _ _ Hin Hid) as (Hs & He & _). split; assumption. }
    split; [exact e2|]. split; [exact e3|]. split; [exact e4|]. split; [exact e8|exact e9].
Qed.

Lemma process_retrieval_failure_witness :
  exists c',
    SampleRun.process_with SampleRun.storage_404
      (payload_of SampleRun.leased_job) SampleRun.conn = (Return tt, c')
    /\ txn c' = None
    /\ job (store c')
       = update_outcome "j1" "failed" (Some SampleRun.not_found) 100 [SampleRun.leased_job]
    /\ (forall r, In r (job (store c')) -> job_id r = "j1" ->
          job_status r = "failed" /\ job_error r = Some SampleRun.not_found)
    /\ statement_line (store c') = []
    /\ anchor (store c') = []
    /\ datum_anchor (store c') = []
    /\ count_statements 7 "balance_sheet" (store c') = Nat.max 1 0
    /\ count_statements 7 "pnl" (store c') = Nat.max 1 0.
Proof.
  apply (process_retrieval_failure Q Re.re_search Re.re_findall Float.py_float
           "https://project.supabase.co" "service-key" "filings"
           SampleRun.storage_404 (payload_of SampleRun.leased_job)
           SampleRun.not_found SampleRun.conn).
  reflexivity.
Defined.

(** C3, the claim as stated fails: for a filing without statements the run
    whose retrieval fails ends with the job [failed] and with the two
    statements it created before retrieval committed. *)
Lemma process_retrieval_failure_creates_statements :
  (exists c',
     SampleRun.process_with SampleRun.storage_404
       (payload_of SampleRun.leased_job) SampleRun.conn = (Return tt, c')
     /\ map job_status (job (store c')) = ["failed"]
     /\ statement (view SampleRun.conn) = []
     /\ statement (store c')
        = [mkStatement 1 7 "balance_sheet" "en" "EUR"; mkStatement 2 7 "pnl" "en" "EUR"])
  /\ ~ failure_creates_nothing
         (SampleRun.process_with SampleRun.storage_404 (payload_of SampleRun.leased_job))
         SampleRun.conn.
Proof.
  split.
  - eexists. split; [reflexivity|]. repeat split.
  - intro H. destruct (H _ eq_refl) as [H1 _]. discriminate H1.
Qed.

(* ------------------------------------------------------------------ *)
(* ------------------------------------------------------------------ *)
(** ** A failure inside insert_lines *)

(** C1, evaluated where the code departs from it: [insert_lines] with
    anchors and at least one line.  Every anchor is inserted, then the INSERT
    of the first line raises ProgrammingError; nothing is committed at that
    point, and nothing is rolled back: the anchors stay pending in the open
    transaction.  The handler of [main] then calls [mark_job] on the same
    connection, whose [commit] publishes the anchors together with the job's
    [failed] status.  With the one anchor [A0] and one line, the anchor row
    of [A0] is in the committed database after the job was marked failed,
    without any line or link. *)
Theorem insert_lines_failure_committed_by_mark_job :
  (forall (float : Type) (filing_id : Z) (line : LineIn (float := float))
          (lines : list (LineIn (float := float)))
          (anchors : list (AnchorIn (float := float)))
          (id : string) (c : Conn (float := float)),
     exists c1 c2,
       insert_lines filing_id (line :: lines) anchors c
       = (Raise "the query has 8 placeholders but 9 parameters were passed", c1)
       /\ store c1 = store c
       /\ mark_job id "failed"
            (Some "the query has 8 placeholders but 9 parameters were passed") c1
          = (Return tt, c2)
       /\ anchor (store c2)
          = anchor (view c) ++ anchor_rows filing_id (seq_anchor c) anchors
       /\ statement_line (store c2) = statement_line (view c)
       /\ datum_anchor (store c2) = datum_anchor (view c))
  /\ (exists c2,
        try_except
          (_ <- insert_lines 7 [SampleLines.line [0]] [SampleLines.A0] ;;
           mark_job "j1" "succeeded" None)
          (fun e => mark_job "j1" "failed" (Some e))
          SampleRun.conn = (Return tt, c2)
        /\ anchor (store SampleRun.conn) = []
        /\ anchor (store c2)
           = [mkAnchorRow 1 7 "text" 3 SampleLines.box "Total assets 12 345"]
        /\ statement_line (store c2) = []
        /\ datum_anchor (store c2) = []
        /\ job (store c2)
           = [mkJob "j1" "filings/j1.pdf" 7 None "failed"
                (Some "the query has 8 placeholders but 9 parameters were passed")
                1 100]).
Proof.
  split.
  - intros float filing_id line lines anchors id c.
    exists (begin (snd (insert_anchors filing_id anchors [] c))).
    eexists. split; [apply insert_lines_raises|].
    destruct (insert_lines_raises_grows filing_id anchors c)
      as (g1 & _ & _ & _ & _ & _ & _ & g8 & g9 & g10 & _).
    rewrite app_nil_r in g9, g10.
    split; [exact g1|]. split; [reflexivity|].
    rewrite store_commit, view_execute. unfold with_job.
    cbn [anchor statement_line datum_anchor]. repeat split; assumption.
  - eexists. split; [reflexivity|]. repeat split.
Qed.

(* ------------------------------------------------------------------ *)
(** ** Several workers on one backlog *)

Section LeaseFacts.

Variable tie : list JobRow -> nat.

Lemma nth_error_set_nth_eq {A : Type} (l : list A) i x y :
  nth_error l i = Some y -> nth_error (set_nth i x l) i = Some x.
Proof.
  revert i. induction l as [|a l IH]; intros [|i] H; try discriminate H.
  - reflexivity.
  - cbn. apply IH, H.
Qed.

Lemma nth_error_set_nth_neq {A : Type} (l : list A) i j x :
  i <> j -> nth_error (set_nth i x l) j = nth_error l j.
Proof.
  revert i j. induction l as [|a l IH]; intros [|i] [|j] H; try reflexivity.
  - congruence.
  - cbn. apply IH. congruence.
Qed.

Lemma length_set_nth {A : Type} (l : list A) i x :
  List.length (set_nth i x l) = List.length l.
Proof.
  revert i. induction l as [|a l IH]; intros [|i]; cbn; try reflexivity.
  rewrite IH. reflexivity.
Qed.

Lemma set_nth_set_nth {A : Type} (l : list A) i x y :
  set_nth i y (set_nth i x l) = set_nth i y l.
Proof.
  revert i. induction l as [|a l IH]; intros [|i]; cbn; try reflexivity.
  rewrite IH. reflexivity.
Qed.

(** The lists a move leaves are the old ones with worker [i] moved on. *)
Lemma flight_moved s s' i pc pc' :
  nth_error (workers s) i = Some pc ->
  workers s' = set_nth i pc' (workers s) ->
  forall k, flight s' k = if Nat.eqb k i then in_flight pc' else flight s k.
Proof.
  intros H W k. unfold flight. rewrite W.
  destruct (Nat.eqb_spec k i) as [->|N].
  - rewrite (nth_error_set_nth_eq _ _ _ _ H). reflexivity.
  - rewrite nth_error_set_nth_neq by congruence. reflexivity.
Qed.

Lemma worker_moved s s' i pc pc' :
  nth_error (workers s) i = Some pc ->
  workers s' = set_nth i pc' (workers s) ->
  forall k, nth_error (workers s') k
            = if Nat.eqb k i then Some pc' else nth_error (workers s) k.
Proof.
  intros H W k. rewrite W.
  destruct (Nat.eqb_spec k i) as [->|N].
  - apply (nth_error_set_nth_eq _ _ _ _ H).
  - apply nth_error_set_nth_neq. congruence.
Qed.

Lemma In_locks_except i k ws id :
  In id (locks_except i k ws) <->
  exists n pc r, nth_error ws n = Some pc /\ in_flight pc = Some r
                 /\ job_id r = id /\ (k + n)%nat <> i.
Proof.
  revert k. induction ws as [|pc ws IH]; intro k.
  - cbn. split; [intros []|]. intros (n & pc & r & H & _). destruct n; discriminate H.
  - cbn [locks_except]. split.
    + intro H.
      assert (T : In id (locks_except i (S k) ws) ->
                  exists n pc0 r, nth_error (pc :: ws) n = Some pc0 /\ in_flight pc0 = Some r
                                  /\ job_id r = id /\ (k + n)%nat <> i).
      { intro Hin. apply IH in Hin. destruct Hin as (n & pc0 & r & a & b & c & d).
        exists (S n), pc0, r. repeat split; try assumption. lia. }
      destruct (in_flight pc) as [r|] eqn:F; [|exact (T H)].
      destruct (Nat.eqb_spec k i) as [E|N]; [exact (T H)|].
      destruct H as [H|H]; [|exact (T H)].
      exists O, pc, r. repeat split; try assumption. lia.
    + intros (n & pc0 & r & a & b & c & d).
      assert (T : n <> O -> In id (locks_except i (S k) ws)).
      { intro Hn. destruct n as [|n]; [congruence|]. apply IH.
        exists n, pc0, r. repeat split; try assumption. lia. }
      destruct n as [|n].
      * cbn in a. injection a as ->. rewrite b.
        destruct (Nat.eqb_spec k i) as [E|N]; [lia|]. left. exact c.
      * destruct (in_flight pc); [destruct (Nat.eqb k i)|];
          try right; apply T; discriminate.
Qed.

(** A row is locked by another worker than [i] exactly when one is in
    flight with it. *)
Lemma locked_elsewhere s i id :
  In id (locks_except i 0 (workers s)) <->
  exists j r, j <> i /\ flight s j = Some r /\ job_id r = id.
Proof.
  rewrite In_locks_except. unfold flight. split.
  - intros (n & pc & r & a & b & c & d). exists n, r. rewrite a.
    repeat split; assumption.
  - intros (j & r & a & b & c).
    destruct (nth_error (workers s) j) as [pc|] eqn:E; [|discriminate b].
    exists j, pc, r. repeat split; try assumption.
Qed.

Lemma moves_of_snoc i ms m :
  moves_of i (ms ++ [m])
  = (moves_of i ms + if Nat.eqb (who m) i then 1 else 0)%nat.
Proof.
  unfold moves_of. rewrite filter_app, length_app. cbn [filter].
  destruct (Nat.eqb (who m) i); reflexivity.
Qed.

Lemma run_snoc ms m s : run tie (ms ++ [m]) s = step tie m (run tie ms s).
Proof. unfold run. rewrite fold_left_app. reflexivity. Qed.

(** Where a worker is tells how many moves it has made. *)
Lemma after_moves_Idle k : after_moves k Idle -> k = O.
Proof. destruct k as [|[|k]]; cbn; [reflexivity|intros [row H]|intro H]; discriminate H. Qed.

Lemma after_moves_Selected k results locked :
  after_moves k (Selected results locked) ->
  k = 1%nat /\ results = lease_results locked.
Proof.
  destruct k as [|[|k]]; cbn; [intro H; discriminate H| |intro H; discriminate H].
  intros [row H]. injection H as -> ->. split; reflexivity.
Qed.

Lemma after_moves_Crashed k e : after_moves k (Crashed e) -> (2 <= k)%nat /\ e = NoResult.
Proof.
  destruct k as [|[|k]]; cbn; [intro H; discriminate H|intros [row H]; discriminate H|].
  intro H. injection H as ->. split; [lia|reflexivity].
Qed.

Lemma after_moves_Updated k row : ~ after_moves k (Updated row).
Proof. destruct k as [|[|k]]; cbn; [intro H|intros [r H]|intro H]; discriminate H. Qed.

Lemma after_moves_Holding k j : ~ after_moves k (Holding j).
Proof. destruct k as [|[|k]]; cbn; [intro H|intros [r H]|intro H]; discriminate H. Qed.

Lemma nth_error_repeat {A : Type} (x y : A) n k :
  nth_error (repeat x n) k = Some y -> y = x.
Proof.
  intro H. apply nth_error_In, repeat_spec in H. exact H.
Qed.

End LeaseFacts.

Section LeaseInvariant.

Variable tie : list JobRow -> nat.
Variable jobs : list JobRow.
Variable n : nat.

Lemma reached_init : Reached jobs n [] (init jobs n).
Proof.
  constructor; cbn [init backlog returns workers].
  - reflexivity.
  - reflexivity.
  - apply repeat_length.
  - intros i pc H. apply nth_error_repeat in H. subst pc. reflexivity.
  - intros i r H. unfold flight in H. cbn [init workers] in H.
    destruct (nth_error (repeat Idle n) i) as [pc|] eqn:E; [|discriminate H].
    apply nth_error_repeat in E. subst pc. discriminate H.
  - intros i j r r' H. unfold flight in H. cbn [init workers] in H.
    destruct (nth_error (repeat Idle n) i) as [pc|] eqn:E; [|discriminate H].
    apply nth_error_repeat in E. subst pc. discriminate H.
Qed.

(** Worker [i] at [pc] moves on to [pc'], the tables staying as they are:
    what is left to check for the state reached. *)
Lemma reached_moved ms m s pc pc' :
  Reached jobs n ms s ->
  nth_error (workers s) (who m) = Some pc ->
  after_moves (S (moves_of (who m) ms)) pc' ->
  (forall r, in_flight pc' = Some r ->
     In r jobs /\ job_status r = "queued"
     /\ forall j r', j <> who m -> flight s j = Some r' -> job_id r' <> job_id r) ->
  Reached jobs n (ms ++ [m])
    (mkSystem (backlog s) (set_nth (who m) pc' (workers s)) (returns s)).
Proof.
  intros R Hpc Hafter Hfl.
  set (s' := mkSystem (backlog s) (set_nth (who m) pc' (workers s)) (returns s)).
  assert (W : workers s' = set_nth (who m) pc' (workers s)) by reflexivity.
  pose proof (flight_moved s s' (who m) pc pc' Hpc W) as F.
  pose proof (worker_moved s s' (who m) pc pc' Hpc W) as Wk.
  constructor.
  - exact (reached_backlog R).
  - exact (reached_returns R).
  - cbn [workers s']. rewrite length_set_nth. exact (reached_workers R).
  - intros i pc0 H. rewrite Wk in H. rewrite moves_of_snoc.
    destruct (Nat.eqb_spec i (who m)) as [->|N].
    + injection H as <-. rewrite Nat.eqb_refl, Nat.add_1_r. exact Hafter.
    + destruct (Nat.eqb_spec (who m) i) as [E|_]; [congruence|].
      rewrite Nat.add_0_r. exact (reached_pc R i H).
  - intros i r H. rewrite F in H.
    destruct (Nat.eqb_spec i (who m)) as [->|N].
    + destruct (Hfl r H) as (a & b & _). split; assumption.
    + exact (reached_flight R i H).
  - intros i j r r' Hi Hj E. rewrite F in Hi, Hj.
    destruct (Nat.eqb_spec i (who m)) as [Ei|Ni];
      destruct (Nat.eqb_spec j (who m)) as [Ej|Nj].
    + congruence.
    + exfalso. destruct (Hfl r Hi) as (_ & _ & X).
      apply (X j r' Nj Hj). symmetry. exact E.
    + exfalso. destruct (Hfl r' Hj) as (_ & _ & X).
      apply (X i r Ni Hi). exact E.
    + exact (reached_excl R i j Hi Hj E).
Qed.

Lemma reached_step ms m s :
  Reached jobs n ms s -> Reached jobs n (ms ++ [m]) (step tie m s).
Proof.
  intro R. unfold step.
  destruct (nth_error (workers s) (who m)) as [pc|] eqn:Hpc.
  - pose proof (reached_pc R (who m) Hpc) as A.
    destruct pc as [|results locked|row|j|e].
    + (* the execute of the lease *)
      apply after_moves_Idle in A.
      apply (reached_moved ms m s Idle _ R Hpc).
      * rewrite A. cbn. eexists. reflexivity.
      * intros r Hr. cbn [in_flight] in Hr.
        destruct (select_for_update_skip_locked tie (backlog s)
                    (locks_except (who m) 0 (workers s))) as [row|] eqn:Sel;
          [|discriminate Hr].
        injection Hr as ->.
        apply select_Some in Sel. destruct Sel as (a & b & c & _).
        rewrite (reached_backlog R) in a. split; [exact a|]. split; [exact b|].
        intros j r' Hj Hf E. apply c. apply locked_elsewhere.
        exists j, r'. repeat split; assumption.
    + (* fetchone on the results of the lease *)
      apply after_moves_Selected in A. destruct A as [A ->].
      rewrite fetchone_lease_results.
      apply (reached_moved ms m s _ _ R Hpc).
      * rewrite A. reflexivity.
      * intros r Hr. discriminate Hr.
    + exfalso. exact (after_moves_Updated _ _ A).
    + exfalso. exact (after_moves_Holding _ _ A).
    + (* a dead worker *)
      apply after_moves_Crashed in A. destruct A as [A ->].
      constructor.
      * exact (reached_backlog R).
      * exact (reached_returns R).
      * exact (reached_workers R).
      * intros i pc0 H. rewrite moves_of_snoc.
        pose proof (reached_pc R i H) as B.
        destruct (Nat.eqb_spec (who m) i) as [E|_]; [|rewrite Nat.add_0_r; exact B].
        subst i. rewrite Hpc in H. injection H as <-.
        destruct (moves_of (who m) ms) as [|[|k]]; [lia|lia|]. reflexivity.
      * exact (reached_flight R).
      * exact (reached_excl R).
  - constructor.
    + exact (reached_backlog R).
    + exact (reached_returns R).
    + exact (reached_workers R).
    + intros i pc0 H. rewrite moves_of_snoc.
      destruct (Nat.eqb_spec (who m) i) as [E|_];
        [subst i; rewrite Hpc in H; discriminate H|].
      rewrite Nat.add_0_r. exact (reached_pc R i H).
    + exact (reached_flight R).
    + exact (reached_excl R).
Qed.

Lemma reached_run ms : Reached jobs n ms (run tie ms (init jobs n)).
Proof.
  induction ms as [|m ms IH] using rev_ind.
  - exact reached_init.
  - rewrite run_snoc. apply reached_step, IH.
Qed.

(** The two moves of a lease are the call of [fetch_one_job] on the
    worker's connection: the same SELECT with the same locks in view, the
    same results under the cursor, the same exception. *)
Lemma lease_moves_are_fetch_one_job {float : Type} s m m' :
  who m' = who m ->
  nth_error (workers s) (who m) = Some Idle ->
  exists results row c',
    execute_lease tie (conn_of (float := float) s (who m)) = (results, row, c')
    /\ step tie m s
       = mkSystem (backlog s) (set_nth (who m) (Selected results row) (workers s))
                  (returns s)
    /\ fetch_one_job tie (conn_of (float := float) s (who m)) = (Raise NoResult, c')
    /\ step tie m' (step tie m s)
       = mkSystem (backlog s) (set_nth (who m) (Crashed NoResult) (workers s))
                  (returns s).
Proof.
  intros Hw Hpc. do 3 eexists. split; [reflexivity|]. split; [|split].
  - unfold step. rewrite Hpc. reflexivity.
  - reflexivity.
  - unfold step at 2. rewrite Hpc. unfold step. rewrite Hw. cbn [workers].
    rewrite (nth_error_set_nth_eq _ _ _ _ Hpc). cbn [fetchone lease_results].
    cbn [backlog workers returns]. rewrite set_nth_set_nth. reflexivity.
Qed.

End LeaseInvariant.

(** C2, evaluated on the code: however the statements of [n] workers
    interleave on a backlog, no call of [fetch_one_job] ever returns, so no
    job is leased, where the claim has min(N, M) of them leased.  A worker's
    first move runs the SELECT, which locks a queued row no other worker has
    locked (two open leases never hold the same row); its second move is
    [cur.fetchone()], which raises and ends the worker; the job table is
    never changed.  One worker on one queued job ends dead with the job
    still [queued], and so do two workers racing for two jobs. *)
Theorem lease_never_returns :
  (forall (tie : list JobRow -> nat) (jobs : list JobRow) (n : nat) (ms : list Move),
     backlog (run tie ms (init jobs n)) = jobs
     /\ returns (run tie ms (init jobs n)) = []
     /\ leased (run tie ms (init jobs n)) = []
     /\ (forall i, (i < n)%nat ->
           exists pc, nth_error (workers (run tie ms (init jobs n))) i = Some pc
                      /\ after_moves (moves_of i ms) pc)
     /\ (forall i j r r',
           flight (run tie ms (init jobs n)) i = Some r ->
           flight (run tie ms (init jobs n)) j = Some r' ->
           job_id r = job_id r' -> i = j))
  /\ (forall tie : list JobRow -> nat,
        run tie [SampleRace.move 0; SampleRace.move 0]
            (init [Sample.queued_job "j1" 1] 1)
        = mkSystem [Sample.queued_job "j1" 1]
                   [Crashed NoResult] [])
  /\ run Sample.tie_first SampleRace.alternate (init Sample.two_jobs 2)
     = mkSystem Sample.two_jobs
                [Crashed NoResult;
                 Crashed NoResult] [].
Proof.
  split; [|split].
  - intros tie jobs n ms. pose proof (reached_run tie jobs n ms) as R.
    split; [exact (reached_backlog R)|]. split; [exact (reached_returns R)|].
    split; [unfold leased; rewrite (reached_returns R); reflexivity|].
    split; [|exact (reached_excl R)].
    intros i Hi.
    destruct (nth_error (workers (run tie ms (init jobs n))) i) as [pc|] eqn:E.
    + exists pc. split; [reflexivity|exact (reached_pc R i E)].
    + apply nth_error_None in E. rewrite (reached_workers R) in E. lia.
  - intro tie. reflexivity.
  - reflexivity.
Qed.

(** Two workers whose first moves come before either [fetchone]: the SELECT
    of the second skips the row the first has locked. *)
Lemma race_locks_distinct_rows :
  run Sample.tie_first [SampleRace.move 0; SampleRace.move 1]
      (init Sample.two_jobs 2)
  = mkSystem Sample.two_jobs
      [Selected (lease_results (Some (Sample.queued_job "j1" 1)))
                (Some (Sample.queued_job "j1" 1));
       Selected (lease_results (Some (Sample.queued_job "j2" 2)))
                (Some (Sample.queued_job "j2" 2))] [].
Proof. reflexivity. Qed.

(* ------------------------------------------------------------------ *)
(** ** The try statement, end to end *)

(** A leased job for a filing without statements, whose document has the
    caption "Total assets" next to 12 345,00: the engine reads one line of
    value 12345 with its anchor on page 1; the try statement of [main] ends
    with the job [failed] on the INSERT of that line, the filing has its two
    statements, the anchor is committed, and there is no line and no link. *)
Lemma process_end_to_end :
  exists c',
    SampleRun.process_with (SampleRun.storage_of SampleDocs.caption_number)
      (payload_of SampleRun.leased_job) SampleRun.conn = (Return tt, c')
    /\ txn c' = None
    /\ map (fun r => (job_status r, job_error r)) (job (store c'))
       = [("failed", Some "the query has 8 placeholders but 9 parameters were passed")]
    /\ map (fun r => (st_id r, st_type r)) (statement (store c'))
       = [(1, "balance_sheet"); (2, "pnl")]
    /\ map (fun r => (an_id r, an_page r, an_snippet r)) (anchor (store c'))
       = [(1, 1, "Total assets 12 345,00")]
    /\ statement_line (store c') = []
    /\ datum_anchor (store c') = [].
Proof.
  eexists. split; [vm_compute; reflexivity|]. repeat split.
Qed.

(* ------------------------------------------------------------------ *)
(** * Further properties of the code *)

(** ** extract_text_blocks and find_first *)

Section Blocks.

Context {float : Type}.
Variable re_search : string -> string -> bool.
Implicit Types doc : Doc (float := float).
Implicit Types blk b : TextBlock (float := float).

Lemma find_from_spec i0 (blocks : list (TextBlock (float := float))) pats :
  match find_from re_search i0 blocks pats with
  | Some (i, blk) =>
      (i0 <= i)%nat
      /\ nth_error blocks (i - i0) = Some blk
      /\ matches_any re_search pats blk = true
      /\ forall k b, (k < i - i0)%nat -> nth_error blocks k = Some b ->
                     matches_any re_search pats b = false
  | None => forall b, In b blocks -> matches_any re_search pats b = false
  end.
Proof.
  revert i0. induction blocks as [|a rest IH]; intro i0; cbn [find_from].
  - intros b [].
  - fold (matches_any re_search pats a).
    destruct (matches_any re_search pats a) eqn:M.
    + rewrite Nat.sub_diag. split; [lia|]. split; [reflexivity|]. split; [exact M|].
      intros k b Hk. lia.
    + specialize (IH (S i0)).
      destruct (find_from re_search (S i0) rest pats) as [[i blk]|].
      * destruct IH as (a1 & a2 & a3 & a4).
        replace (i - i0)%nat with (S (i - S i0)) by lia.
        split; [lia|]. split; [exact a2|]. split; [exact a3|].
        intros [|k] b Hk E.
        -- cbn in E. injection E as <-. exact M.
        -- cbn in E. apply (a4 k b); [lia|exact E].
      * intros b [<-|Hb]; [exact M|exact (IH b Hb)].
Qed.

Lemma extract_from_In pno (pages : list (Page (float := float))) blk :
  In blk (extract_from pno pages) <->
  exists p page bk, nth_error pages p = Some page /\ In bk (page_blocks page)
                    /\ blk = mkTextBlock (pno + p) (b_bbox bk) (b_text bk).
Proof.
  revert pno. induction pages as [|pg rest IH]; intro pno; cbn [extract_from].
  - split; [intros []|]. intros (p & page & bk & H & _). destruct p; discriminate H.
  - rewrite in_app_iff, in_map_iff, IH. split.
    + intros [(bk & E & Hin)|(p & page & bk & a & b & c)].
      * exists O, pg, bk. rewrite Nat.add_0_r. repeat split; auto.
      * exists (S p), page, bk. replace (pno + S p)%nat with (S pno + p)%nat by lia.
        repeat split; auto.
    + intros (p & page & bk & a & b & c). destruct p as [|p].
      * left. cbn in a. injection a as <-. exists bk. rewrite Nat.add_0_r in c.
        split; [symmetry; exact c|exact b].
      * right. exists p, page, bk. replace (S pno + p)%nat with (pno + S p)%nat by lia.
        repeat split; auto.
Qed.

Lemma length_extract_from pno (pages : list (Page (float := float))) :
  List.length (extract_from pno pages)
  = list_sum (map (fun page => List.length (page_blocks page)) pages).
Proof.
  revert pno. induction pages as [|pg rest IH]; intro pno; cbn [extract_from map list_sum];
    [reflexivity|].
  rewrite length_app, length_map, IH. reflexivity.
Qed.

(** Page numbers never go down along the list of blocks. *)
Lemma extract_from_sorted pno (pages : list (Page (float := float))) j k bj bk :
  (j <= k)%nat ->
  nth_error (extract_from pno pages) j = Some bj ->
  nth_error (extract_from pno pages) k = Some bk ->
  (tb_page bj <= tb_page bk)%nat.
Proof.
  revert pno j k. induction pages as [|pg rest IH]; intros pno j k Hjk Hj Hk;
    cbn [extract_from] in *.
  - destruct j; discriminate Hj.
  - set (here := map (fun x : Block => mkTextBlock pno (b_bbox x) (b_text x)) (page_blocks pg)) in *.
    assert (Here : forall i b, nth_error here i = Some b -> tb_page b = pno).
    { intros i b H. apply nth_error_In in H. apply in_map_iff in H.
      destruct H as (x & <- & _). reflexivity. }
    assert (There : forall i b, nth_error (extract_from (S pno) rest) i = Some b ->
                      (S pno <= tb_page b)%nat).
    { intros i b H. apply nth_error_In, extract_from_page in H. lia. }
    destruct (Nat.lt_ge_cases j (List.length here)) as [Lj|Gj];
      destruct (Nat.lt_ge_cases k (List.length here)) as [Lk|Gk].
    + rewrite nth_error_app1 in Hj, Hk by assumption.
      rewrite (Here _ _ Hj), (Here _ _ Hk). lia.
    + rewrite nth_error_app1 in Hj by assumption.
      rewrite nth_error_app2 in Hk by assumption.
      rewrite (Here _ _ Hj). pose proof (There _ _ Hk). lia.
    + lia.
    + rewrite nth_error_app2 in Hj, Hk by assumption.
      apply (IH (S pno) (j - List.length here)%nat (k - List.length here)%nat);
        [lia|exact Hj|exact Hk].
Qed.

End Blocks.

(** X1: [extract_text_blocks] lists the blocks of the document page by page:
    there are as many as the pages have together, a block is listed exactly
    when it is a block of the page whose 0-based number it carries, with its
    box and its text, and page numbers never go down along the list. *)
Theorem extract_text_blocks_page_by_page :
  forall (float : Type) (doc : Doc (float := float)),
    List.length (extract_text_blocks doc)
    = list_sum (map (fun page => List.length (page_blocks page)) doc)
    /\ (forall blk, In blk (extract_text_blocks doc) <->
          exists page bk, nth_error doc (tb_page blk) = Some page
                          /\ In bk (page_blocks page)
                          /\ tb_bbox blk = b_bbox bk /\ tb_text blk = b_text bk)
    /\ (forall j k bj bk, (j <= k)%nat ->
          nth_error (extract_text_blocks doc) j = Some bj ->
          nth_error (extract_text_blocks doc) k = Some bk ->
          (tb_page bj <= tb_page bk)%nat).
Proof.
  intros float doc. unfold extract_text_blocks.
  split; [apply length_extract_from|]. split; [|apply extract_from_sorted].
  intro blk. rewrite extract_from_In. split.
  - intros (p & page & bk & a & b & ->). exists page, bk. cbn. repeat split; auto.
  - intros (page & bk & a & b & c & d). exists (tb_page blk), page, bk.
    repeat split; auto. destruct blk as [pg bb tx]. cbn in *. congruence.
Qed.

(** X2: [find_first] returns the first block, in the order of
    [extract_text_blocks], whose text one of the patterns matches, with its
    position; it returns nothing exactly when no block matches (so always for
    an empty pattern list or a document without blocks). *)
Theorem find_first_is_first_match :
  forall (float : Type) (re_search : string -> string -> bool)
         (doc : Doc (float := float)) (pats : list string),
    match find_first re_search doc pats with
    | Some (i, blk) =>
        nth_error (extract_text_blocks doc) i = Some blk
        /\ matches_any re_search pats blk = true
        /\ (forall k b, (k < i)%nat -> nth_error (extract_text_blocks doc) k = Some b ->
              matches_any re_search pats b = false)
    | None =>
        forall b, In b (extract_text_blocks doc) -> matches_any re_search pats b = false
    end.
Proof.
  intros float re_search doc pats. unfold find_first.
  pose proof (find_from_spec re_search 0 (extract_text_blocks doc) pats) as H.
  destruct (find_from re_search 0 (extract_text_blocks doc) pats) as [[i blk]|];
    [|exact H].
  rewrite Nat.sub_0_r in H. destruct H as (_ & a & b & c). repeat split; assumption.
Qed.

(* ------------------------------------------------------------------ *)
(** ** parse_mvp *)

(** [s[:n]] has at most [n] code points, is [s] when [s] has no more, and is
    a prefix of [s] in every case. *)
Lemma length_py_prefix n s : (py_len (py_prefix n s) <= n)%nat.
Proof.
  revert n. induction s as [|b t IH]; intro n; [cbn; lia|].
  cbn [py_prefix]. destruct (is_continuation b) eqn:C.
  - cbn [py_len]. rewrite C. apply IH.
  - destruct n as [|n]; [cbn; lia|]. cbn [py_len]. rewrite C.
    specialize (IH n). lia.
Qed.

Lemma py_prefix_short n s : (py_len s <= n)%nat -> py_prefix n s = s.
Proof.
  revert n. induction s as [|b t IH]; intros n H; [reflexivity|].
  cbn [py_prefix py_len] in *. destruct (is_continuation b).
  - rewrite IH by exact H. reflexivity.
  - destruct n as [|n]; [lia|]. rewrite IH by lia. reflexivity.
Qed.

Lemma py_prefix_is_prefix n s : prefix (py_prefix n s) s = true.
Proof.
  revert n. induction s as [|b t IH]; intro n; [reflexivity|].
  cbn [py_prefix]. destruct (is_continuation b).
  - cbn. destruct (ascii_dec b b) as [_|N]; [apply IH|congruence].
  - destruct n as [|n]; [reflexivity|].
    cbn. destruct (ascii_dec b b) as [_|N]; [apply IH|congruence].
Qed.

(** On ASCII text a code point is a byte. *)
Lemma py_prefix_ascii n s :
  (forall b, In b (list_ascii_of_string s) -> is_continuation b = false) ->
  py_prefix n s = substring 0 n s /\ py_len s = String.length s.
Proof.
  revert n. induction s as [|b t IH]; intros n H.
  - destruct n; split; reflexivity.
  - cbn [py_prefix py_len]. rewrite (H b (or_introl eq_refl)).
    assert (Ht : forall b', In b' (list_ascii_of_string t) -> is_continuation b' = false)
      by (intros b' Hb; apply H; right; exact Hb).
    destruct n as [|n].
    + split; [reflexivity|]. cbn. f_equal. apply (IH O Ht).
    + destruct (IH n Ht) as [E L]. rewrite E. split; [reflexivity|].
      cbn. f_equal. exact L.
Qed.

(** Two letters with an accent and a sign, of two and three bytes: the cut
    after two code points keeps the five bytes of both. *)
Lemma py_prefix_code_points :
  let e_acute := String (ascii_of_nat 195) (String (ascii_of_nat 169) EmptyString) in
  let euro := String (ascii_of_nat 226)
                (String (ascii_of_nat 130) (String (ascii_of_nat 172) EmptyString)) in
  py_prefix 2 (e_acute ++ euro ++ "a")%string = (e_acute ++ euro)%string
  /\ py_len (e_acute ++ euro ++ "a")%string = 3%nat.
Proof. split; reflexivity. Qed.

Section ParserMore.

Context {float : Type}.
Variable re_search : string -> string -> bool.
Variable re_findall : string -> string -> list string.
Variable py_float : string -> option float.
Implicit Types doc : Doc (float := float).
Implicit Types anchors : list (AnchorIn (float := float)).
Implicit Types lines : list (LineIn (float := float)).

(** A property of the two lists that every turn of the loop keeps holds of
    the result, and the loop returns. *)
Lemma parse_loop_invariant (P : list (AnchorIn (float := float)) ->
                                list (LineIn (float := float)) -> Prop)
  doc items anchors lines :
  (forall key pats, In (key, pats) items -> caption_map key <> None) ->
  (forall key pats i blk page caption side a l,
     In (key, pats) items ->
     find_first re_search doc pats = Some (i, blk) ->
     In blk (extract_text_blocks doc) ->
     nth_error doc (tb_page blk) = Some page ->
     caption_map key = Some (caption, side) ->
     P a l ->
     P (a ++ [step_anchor blk])
       (l ++ [StatementLine "balance_sheet" None caption (Some side) "current"
                (read_value re_findall py_float page) [Z.of_nat (List.length a)]])) ->
  P anchors lines ->
  exists r, parse_loop re_search re_findall py_float doc items anchors lines = Return r
            /\ P (r_anchors r) (r_lines r).
Proof.
  revert anchors lines. induction items as [|[key pats] rest IH];
    intros anchors lines Hkeys Hstep HP.
  - eexists. split; [reflexivity|exact HP].
  - assert (Hrest : forall k p, In (k, p) rest -> caption_map k <> None)
      by (intros k p Hin; apply (Hkeys k p); right; exact Hin).
    assert (Hstep' : forall key pats i blk page caption side a l,
              In (key, pats) rest ->
              find_first re_search doc pats = Some (i, blk) ->
              In blk (extract_text_blocks doc) ->
              nth_error doc (tb_page blk) = Some page ->
              caption_map key = Some (caption, side) ->
              P a l ->
              P (a ++ [step_anchor blk])
                (l ++ [StatementLine "balance_sheet" None caption (Some side) "current"
                         (read_value re_findall py_float page)
                         [Z.of_nat (List.length a)]]))
      by (intros k p i blk page caption side a l Hin; apply (Hstep k p); right; exact Hin).
    cbn [parse_loop].
    destruct (find_first re_search doc pats) as [[i blk]|] eqn:F;
      [|exact (IH anchors lines Hrest Hstep' HP)].
    destruct (find_first_page re_search doc pats i blk F) as [page E]. rewrite E.
    destruct (caption_map key) as [[caption side]|] eqn:C;
      [|exfalso; apply (Hkeys key pats); [left; reflexivity|exact C]].
    apply IH; [exact Hrest|exact Hstep'|].
    apply (Hstep key pats i blk page caption side); try assumption.
    + left; reflexivity.
    + unfold find_first in F. exact (find_from_In re_search _ _ _ _ _ F).
Qed.

Lemma parse_mvp_paired doc :
  exists r, parse_mvp re_search re_findall py_float doc = Return r
            /\ paired re_findall py_float doc (r_anchors r) (r_lines r).
Proof.
  unfold parse_mvp. apply (parse_loop_invariant (paired re_findall py_float doc)).
  - exact CAPTIONS_keys.
  - intros key pats i blk page caption side a l _ _ Hin Hpage _ [Hlen Hk]. split.
    + rewrite !length_app. cbn. lia.
    + intros k line anc El Ea.
      destruct (Nat.lt_ge_cases k (List.length l)) as [Hlt|Hge].
      * rewrite nth_error_app1 in El by exact Hlt.
        rewrite nth_error_app1 in Ea by lia. exact (Hk k line anc El Ea).
      * rewrite nth_error_app2 in El by exact Hge.
        rewrite nth_error_app2 in Ea by lia. rewrite Hlen in Ea.
        destruct (k - List.length l)%nat as [|m]; [|destruct m; discriminate El].
        cbn in El, Ea. injection El as <-. injection Ea as <-.
        exists blk, page. repeat split; assumption.
  - split; [reflexivity|]. intros [|k] line anc E; discriminate E.
Qed.

(** Which lines come out, in which order. *)
Lemma parse_loop_captions doc items anchors lines :
  (forall key pats, In (key, pats) items -> caption_map key <> None) ->
  exists r, parse_loop re_search re_findall py_float doc items anchors lines = Return r
            /\ map (fun l => (l_caption l, l_side l)) (r_lines r)
               = map (fun l => (l_caption l, l_side l)) lines
                 ++ captions_found re_search doc items.
Proof.
  revert anchors lines. induction items as [|[key pats] rest IH];
    intros anchors lines Hkeys.
  - eexists. split; [reflexivity|]. cbn. rewrite app_nil_r. reflexivity.
  - assert (Hrest : forall k p, In (k, p) rest -> caption_map k <> None)
      by (intros k p Hin; apply (Hkeys k p); right; exact Hin).
    cbn [parse_loop captions_found flat_map fst snd]. unfold found at 1.
    destruct (find_first re_search doc pats) as [[i blk]|] eqn:F;
      [|exact (IH anchors lines Hrest)].
    destruct (find_first_page re_search doc pats i blk F) as [page E]. rewrite E.
    destruct (caption_map key) as [[caption side]|] eqn:C;
      [|exfalso; apply (Hkeys key pats); [left; reflexivity|exact C]].
    destruct (IH (anchors ++ [mkAnchorIn (Some "text") (Z.of_nat (tb_page blk) + 1)
                                (tb_bbox blk) (py_prefix 200 (tb_text blk))])
                 (lines ++ [StatementLine "balance_sheet" None caption (Some side)
                              "current" (read_value re_findall py_float page)
                              [Z.of_nat (List.length anchors)]]) Hrest)
      as [r [R Hr]].
    exists r. split; [exact R|]. rewrite Hr, map_app, <- app_assoc. reflexivity.
Qed.

Lemma parse_mvp_fixed_fields doc :
  exists r, parse_mvp re_search re_findall py_float doc = Return r
            /\ forall line, In line (r_lines r) ->
                 l_statement_type line = "balance_sheet" /\ l_period line = "current"
                 /\ l_ref_code line = None /\ l_unit line = Some "EUR".
Proof.
  unfold parse_mvp.
  apply (parse_loop_invariant
           (fun _ l => forall line, In line l ->
                         l_statement_type line = "balance_sheet"
                         /\ l_period line = "current"
                         /\ l_ref_code line = None /\ l_unit line = Some "EUR")).
  - exact CAPTIONS_keys.
  - intros key pats i blk page caption side a l _ _ _ _ _ H line Hin.
    apply in_app_or in Hin. destruct Hin as [Hin|[<-|[]]]; [exact (H line Hin)|].
    repeat split.
  - intros line [].
Qed.

End ParserMore.

(** X3: which lines [parse_mvp] emits for a document fitz has opened: one
    for each caption of [CAPTIONS] found in the document, total assets before
    total equity and liabilities, with the fixed caption text and side; so at
    most two, and none exactly when no caption pattern matches any block.
    Every line is a balance-sheet line for the current period, without
    reference code, in EUR: the engine never emits a [pnl] line. *)
Theorem parse_mvp_lines_emitted :
  forall (float : Type) (re_search : string -> string -> bool)
         (re_findall : string -> string -> list string)
         (py_float : string -> option float) (doc : Doc (float := float)),
  exists r,
    parse_mvp re_search re_findall py_float doc = Return r
    /\ map (fun l => (l_caption l, l_side l)) (r_lines r)
       = captions_found re_search doc CAPTIONS
    /\ (List.length (r_lines r) <= 2)%nat
    /\ (r_lines r = [] <->
        forall key pats, In (key, pats) CAPTIONS -> found re_search doc pats = false)
    /\ (forall line, In line (r_lines r) ->
          l_statement_type line = "balance_sheet" /\ l_period line = "current"
          /\ l_ref_code line = None /\ l_unit line = Some "EUR").
Proof.
  intros float re_search re_findall py_float doc.
  destruct (parse_loop_captions re_search re_findall py_float doc CAPTIONS [] []
              CAPTIONS_keys) as [r [R Hc]].
  destruct (parse_mvp_fixed_fields re_search re_findall py_float doc) as [r' [R' Hf]].
  unfold parse_mvp in R'. rewrite R in R'. injection R' as <-.
  cbn [map app] in Hc.
  exists r. split; [exact R|]. split; [exact Hc|].
  assert (Hlen : List.length (r_lines r)
                 = List.length (captions_found re_search doc CAPTIONS))
    by (rewrite <- Hc, length_map; reflexivity).
  split; [|split; [|exact Hf]].
  - rewrite Hlen. unfold captions_found, CAPTIONS. cbn [flat_map fst snd caption_map].
    repeat match goal with |- context [found ?a ?b ?c] => destruct (found a b c) end;
      cbn; lia.
  - split.
    + intros E key pats Hin. rewrite E in Hlen. cbn in Hlen.
      unfold captions_found, CAPTIONS in Hlen. cbn [flat_map fst snd caption_map] in Hlen.
      destruct Hin as [H|[H|[]]]; injection H as <- <-;
        match goal with |- found ?a ?b ?c = false =>
          destruct (found a b c); [|reflexivity] end;
        cbn in Hlen; try discriminate Hlen;
        repeat match type of Hlen with context [found ?a ?b ?c] =>
                 destruct (found a b c) end; cbn in Hlen; discriminate Hlen.
    + intro H. apply length_zero_iff_nil. rewrite Hlen.
      unfold captions_found, CAPTIONS. cbn [flat_map fst snd].
      rewrite (H _ _ (or_introl eq_refl)), (H _ _ (or_intror (or_introl eq_refl))).
      reflexivity.
Qed.

(** X4: where each line of [parse_mvp] comes from: the anchor at the line's
    position is built from a block of the document, with source type [text],
    the block's box, the first 200 code points of its text (so a snippet of
    at most 200 code points) and the block's page number counted from 1,
    which is a page of the document; the line's value is what is read on that
    page. *)
Theorem parse_mvp_anchor_of_line :
  forall (float : Type) (re_search : string -> string -> bool)
         (re_findall : string -> string -> list string)
         (py_float : string -> option float) (doc : Doc (float := float)),
  exists r,
    parse_mvp re_search re_findall py_float doc = Return r
    /\ forall k line,
         nth_error (r_lines r) k = Some line ->
         exists anc blk page,
           nth_error (r_anchors r) k = Some anc
           /\ In blk (extract_text_blocks doc)
           /\ nth_error doc (tb_page blk) = Some page
           /\ anc = mkAnchorIn (Some "text") (Z.of_nat (tb_page blk) + 1) (tb_bbox blk)
                      (py_prefix 200 (tb_text blk))
           /\ l_value line = read_value re_findall py_float page
           /\ 1 <= a_page anc <= Z.of_nat (List.length doc)
           /\ (py_len (a_snippet anc) <= 200)%nat
           /\ prefix (a_snippet anc) (tb_text blk) = true.
Proof.
  intros float re_search re_findall py_float doc.
  destruct (parse_mvp_paired re_search re_findall py_float doc) as [r [R [Hlen Hk]]].
  exists r. split; [exact R|]. intros k line El.
  destruct (nth_error (r_anchors r) k) as [anc|] eqn:Ea.
  - destruct (Hk k line anc El Ea) as (blk & page & a & b & c & d).
    exists anc, blk, page. split; [reflexivity|]. split; [exact a|]. split; [exact b|].
    split; [exact c|]. split; [exact d|]. subst anc. cbn [a_page a_snippet step_anchor].
    split; [|split; [apply length_py_prefix|apply py_prefix_is_prefix]].
    assert (tb_page blk < List.length doc)%nat
      by (apply nth_error_Some; rewrite b; discriminate).
    lia.
  - exfalso. apply nth_error_None in Ea.
    assert (k < List.length (r_lines r))%nat
      by (apply nth_error_Some; rewrite El; discriminate).
    lia.
Qed.

(** X5: the value of a line is a matter of the page alone: it is the last
    number token of the page's plain text, wherever the caption stands on
    the page.  So two lines whose captions were found on the same page carry
    the same value. *)
Theorem parse_mvp_same_page_same_value :
  forall (float : Type) (re_search : string -> string -> bool)
         (re_findall : string -> string -> list string)
         (py_float : string -> option float) (doc : Doc (float := float)),
  exists r,
    parse_mvp re_search re_findall py_float doc = Return r
    /\ forall j k lj lk aj ak,
         nth_error (r_lines r) j = Some lj -> nth_error (r_anchors r) j = Some aj ->
         nth_error (r_lines r) k = Some lk -> nth_error (r_anchors r) k = Some ak ->
         a_page aj = a_page ak -> l_value lj = l_value lk.
Proof.
  intros float re_search re_findall py_float doc.
  destruct (parse_mvp_paired re_search re_findall py_float doc) as [r [R [_ Hk]]].
  exists r. split; [exact R|]. intros j k lj lk aj ak Elj Eaj Elk Eak Hp.
  destruct (Hk j lj aj Elj Eaj) as (bj & pj & _ & a1 & a2 & a3).
  destruct (Hk k lk ak Elk Eak) as (bk & pk & _ & b1 & b2 & b3).
  subst aj ak. cbn [a_page step_anchor] in Hp.
  assert (E : tb_page bj = tb_page bk) by lia.
  rewrite E in a1. rewrite a1 in b1. injection b1 as <-. congruence.
Qed.

(* ------------------------------------------------------------------ *)
(** ** insert_lines, whatever its input *)

(** X6: when [insert_lines] returns and when it raises.  It returns exactly
    when there is no line to insert, and has then committed the anchors.
    With a line to insert it raises ProgrammingError on the INSERT of the
    first one, whatever the lines and their anchor indices are, and at that
    point it has committed nothing: the committed database is the one it
    started from, while the anchors are pending in the transaction it leaves
    open. *)
Theorem insert_lines_outcome :
  forall (float : Type) (filing_id : Z) (lines : list (LineIn (float := float)))
         (anchors : list (AnchorIn (float := float))) (c : Conn (float := float)),
    match insert_lines filing_id lines anchors c with
    | (Return _, c') =>
        lines = [] /\ txn c' = None /\ held c' = []
        /\ anchor (store c')
           = anchor (view c) ++ anchor_rows filing_id (seq_anchor c) anchors
    | (Raise e, c') =>
        lines <> []
        /\ e = "the query has 8 placeholders but 9 parameters were passed"
        /\ store c' = store c /\ txn c' <> None
        /\ anchor (view c')
           = anchor (view c) ++ anchor_rows filing_id (seq_anchor c) anchors
    end.
Proof.
  intros float filing_id lines anchors c. destruct lines as [|line rest].
  - rewrite insert_lines_no_line.
    destruct (insert_anchors_spec filing_id anchors [] c)
      as [_ (_ & _ & _ & _ & _ & _ & _ & g8 & _)].
    split; [reflexivity|]. split; [reflexivity|]. split; [reflexivity|].
    rewrite store_commit. exact g8.
  - rewrite insert_lines_raises.
    destruct (insert_lines_raises_grows filing_id anchors c)
      as (g1 & _ & _ & _ & _ & _ & _ & g8 & _).
    split; [discriminate|]. split; [reflexivity|]. split; [exact g1|].
    split; [discriminate|exact g8].
Qed.

(** X8: the anchor rows [insert_lines] appends: one per input anchor, in
    the order of the input, each with the filing id, the anchor's page and
    box, its source type or [text] when the dict has none, and its snippet cut
    to 800 code points: a snippet of at most 800 code points is stored whole,
    a longer one as its first 800. *)
Theorem insert_lines_anchor_rows :
  forall (float : Type) (filing_id : Z) (lines : list (LineIn (float := float)))
         (anchors : list (AnchorIn (float := float))) (c : Conn (float := float)),
  exists A,
    anchor (view (snd (insert_lines filing_id lines anchors c))) = anchor (view c) ++ A
    /\ map an_id A = ids_from (seq_anchor c) (List.length anchors)
    /\ Forall2 (fun anc row =>
                  an_filing_id row = filing_id
                  /\ an_page row = a_page anc /\ an_bbox row = a_bbox anc
                  /\ an_source_type row
                     = match a_source_type anc with Some t => t | None => "text" end
                  /\ an_snippet row = py_prefix 800 (a_snippet anc)
                  /\ (py_len (an_snippet row) <= 800)%nat
                  /\ ((py_len (a_snippet anc) <= 800)%nat ->
                      an_snippet row = a_snippet anc))
               anchors A.
Proof.
  intros float filing_id lines anchors c.
  exists (anchor_rows filing_id (seq_anchor c) anchors). split; [|split].
  - destruct lines as [|line rest].
    + rewrite insert_lines_no_line. cbn [snd]. rewrite view_commit.
      destruct (insert_anchors_spec filing_id anchors [] c)
        as [_ (_ & _ & _ & _ & _ & _ & _ & g8 & _)]. exact g8.
    + rewrite insert_lines_raises. cbn [snd].
      destruct (insert_lines_raises_grows filing_id anchors c)
        as (_ & _ & _ & _ & _ & _ & _ & g8 & _). exact g8.
  - generalize (seq_anchor c). clear. induction anchors as [|anc rest IH]; intro first;
      cbn [anchor_rows map List.length ids_from]; [reflexivity|].
    rewrite IH. reflexivity.
  - generalize (seq_anchor c). clear. induction anchors as [|anc rest IH]; intro first;
      cbn [anchor_rows]; constructor; [|apply IH].
    cbn. repeat split; [apply length_py_prefix|apply py_prefix_short].
Qed.

(* ------------------------------------------------------------------ *)
(** ** The try statement of main, whatever the document *)

Section ProcessAny.

Context {float : Type}.
Variable re_search : string -> string -> bool.
Variable re_findall : string -> string -> list string.
Variable py_float : string -> option float.
Variables SUPABASE_URL SERVICE_KEY BUCKET : string.
Variable requests_get : string -> string -> outcome (Doc (float := float)).
Implicit Types c : Conn (float := float).
Implicit Types lines : list (LineIn (float := float)).

Lemma ensure_statements_seqs filing_id c :
  seq_line (snd (ensure_statements filing_id c)) = seq_line c
  /\ seq_anchor (snd (ensure_statements filing_id c)) = seq_anchor c.
Proof.
  change (snd (ensure_statements filing_id c))
    with (commit (ensure_one filing_id "pnl" (ensure_one filing_id "balance_sheet" c))).
  destruct (ensure_one_frame filing_id "balance_sheet" c) as (_ & _ & _ & _ & _ & a6 & a7).
  destruct (ensure_one_frame filing_id "pnl" (ensure_one filing_id "balance_sheet" c))
    as (_ & _ & _ & _ & _ & b6 & b7).
  cbn [seq_line seq_anchor commit]. split; congruence.
Qed.

(** The try statement when retrieval returns [doc]. *)
Lemma process_on_document j doc c :
  download_pdf SUPABASE_URL SERVICE_KEY BUCKET requests_get (p_storage_path j)
  = Return doc ->
  exists c' r,
    parse_mvp re_search re_findall py_float doc = Return r
    /\ process re_search re_findall py_float SUPABASE_URL SERVICE_KEY BUCKET
               requests_get j c = (Return tt, c')
    /\ txn c' = None
    /\ job (store c')
       = update_outcome (p_id j) (reported_status (r_lines r)) (reported_error (r_lines r))
           (clock c) (job (view c))
    /\ has_statement (p_filing_id j) "balance_sheet" (store c') = true
    /\ has_statement (p_filing_id j) "pnl" (store c') = true
    /\ anchor (store c')
       = anchor (view c) ++ anchor_rows (p_filing_id j) (seq_anchor c) (r_anchors r)
    /\ statement_line (store c') = statement_line (view c)
    /\ datum_anchor (store c') = datum_anchor (view c).
Proof.
  intro Hd.
  destruct (ensure_statements_frame (p_filing_id j) c)
    as (c1 & R & Ht & e1 & e2 & e3 & e4 & e5 & e6 & e7 & _).
  destruct (ensure_statements_seqs (p_filing_id j) c) as [_ q2].
  rewrite R in q2. cbn [snd] in q2.
  assert (V : view c1 = store c1) by (unfold view; rewrite Ht; reflexivity).
  destruct (parse_mvp_shape re_search re_findall py_float doc) as [r [Rp _]].
  destruct (insert_anchors_spec (p_filing_id j) (r_anchors r) [] c1) as [_ G].
  pose proof (insert_lines_raises_grows (p_filing_id j) (r_anchors r) c1) as G'.
  unfold has_statement in *.
  destruct (r_lines r) as [|line rest] eqn:El.
  - exists (commit (execute (with_job (update_outcome (p_id j) "succeeded" None
               (clock (commit (snd (insert_anchors (p_filing_id j) (r_anchors r) [] c1))))))
             (commit (snd (insert_anchors (p_filing_id j) (r_anchors r) [] c1))))), r.
    split; [exact Rp|]. split.
    { unfold process, try_except, bind, lift. rewrite R, Hd, Rp, El.
      rewrite insert_lines_no_line. reflexivity. }
    split; [reflexivity|].
    destruct G as (_ & _ & _ & _ & g5 & g6 & g7 & g8 & g9 & g10 & _).
    rewrite app_nil_r in g9, g10.
    rewrite store_commit, view_execute, view_commit, El. unfold with_job.
    cbn [job statement statement_line anchor datum_anchor clock commit
         reported_status reported_error].
    rewrite g5, g6, g7, g8, g9, g10, V, e1, e2, e3, e4, e5, q2.
    repeat split; assumption.
  - exists (commit (execute (with_job (update_outcome (p_id j) "failed"
               (Some "the query has 8 placeholders but 9 parameters were passed")
               (clock (begin (snd (insert_anchors (p_filing_id j) (r_anchors r) [] c1))))))
             (begin (snd (insert_anchors (p_filing_id j) (r_anchors r) [] c1))))), r.
    split; [exact Rp|]. split.
    { unfold process, try_except, bind, lift. rewrite R, Hd, Rp, El.
      rewrite insert_lines_raises. reflexivity. }
    split; [reflexivity|].
    destruct G' as (_ & _ & _ & _ & g5 & g6 & g7 & g8 & g9 & g10 & _).
    rewrite app_nil_r in g9, g10.
    rewrite store_commit, view_execute, El. unfold with_job.
    cbn [job statement statement_line anchor datum_anchor
         reported_status reported_error].
    rewrite g5, g6, g7, g8, g9, g10, V, e1, e2, e3, e4, e5, q2.
    repeat split; assumption.
Qed.

(** The try statement when retrieval raises [msg]. *)
Lemma process_on_failure j msg c :
  download_pdf SUPABASE_URL SERVICE_KEY BUCKET requests_get (p_storage_path j)
  = Raise msg ->
  exists c',
    process re_search re_findall py_float SUPABASE_URL SERVICE_KEY BUCKET
            requests_get j c = (Return tt, c')
    /\ txn c' = None
    /\ job (store c') = update_outcome (p_id j) "failed" (Some msg) (clock c) (job (view c)).
Proof.
  intro Hd.
  destruct (ensure_statements_frame (p_filing_id j) c) as (c1 & R & Ht & e1 & _ & _ & _ & e5 & _).
  assert (V : view c1 = store c1) by (unfold view; rewrite Ht; reflexivity).
  exists (commit (execute (with_job (update_outcome (p_id j) "failed" (Some msg)
                                        (clock c1))) c1)).
  split; [unfold process, try_except, bind, lift; rewrite R, Hd; reflexivity|].
  split; [reflexivity|].
  rewrite store_commit, view_execute, V. unfold with_job. cbn [job]. rewrite e1, e5.
  reflexivity.
Qed.

End ProcessAny.

(** X9: whenever retrieval returns a document (the file fetched and opened
    by fitz), the try statement of [main] returns with the filing's two
    statements present, the engine's anchors committed in order, and no line
    and no link stored.  The job is reported [succeeded] without error only
    when the engine emitted no line; when it emitted one, the INSERT of the
    first line raises, and the job is reported [failed] with that
    ProgrammingError as its error, its anchors committed all the same. *)
Theorem process_stores_anchors_only :
  forall (float : Type) (re_search : string -> string -> bool)
         (re_findall : string -> string -> list string)
         (py_float : string -> option float)
         (SUPABASE_URL SERVICE_KEY BUCKET : string)
         (requests_get : string -> string -> outcome (Doc (float := float)))
         (j : Payload) (doc : Doc (float := float)) (c : Conn (float := float)),
    download_pdf SUPABASE_URL SERVICE_KEY BUCKET requests_get (p_storage_path j)
    = Return doc ->
    exists c' r,
      parse_mvp re_search re_findall py_float doc = Return r
      /\ process re_search re_findall py_float SUPABASE_URL SERVICE_KEY BUCKET
                 requests_get j c = (Return tt, c')
      /\ txn c' = None
      /\ job (store c')
         = update_outcome (p_id j)
             (match r_lines r with [] => "succeeded" | _ :: _ => "failed" end)
             (match r_lines r with
              | [] => None
              | _ :: _ =>
                  Some "the query has 8 placeholders but 9 parameters were passed"
              end)
             (clock c) (job (view c))
      /\ (forall row, In row (job (store c')) -> job_id row = p_id j ->
            match r_lines r with
            | [] => job_status row = "succeeded" /\ job_error row = None
            | _ :: _ =>
                job_status row = "failed"
                /\ job_error row
                   = Some "the query has 8 placeholders but 9 parameters were passed"
            end)
      /\ has_statement (p_filing_id j) "balance_sheet" (store c') = true
      /\ has_statement (p_filing_id j) "pnl" (store c') = true
      /\ anchor (store c')
         = anchor (view c) ++ anchor_rows (p_filing_id j) (seq_anchor c) (r_anchors r)
      /\ statement_line (store c') = statement_line (view c)
      /\ datum_anchor (store c') = datum_anchor (view c).
Proof.
  intros float re_search re_findall py_float SUPABASE_URL SERVICE_KEY BUCKET
         requests_get j doc c Hd.
  destruct (process_on_document re_search re_findall py_float SUPABASE_URL SERVICE_KEY
              BUCKET requests_get j doc c Hd) as (c' & r & Rp & R & Ht & Hj & Hrest).
  exists c', r. split; [exact Rp|]. split; [exact R|]. split; [exact Ht|].
  split; [rewrite Hj; destruct (r_lines r); reflexivity|]. split; [|exact Hrest].
  intros row Hin Hid. rewrite Hj in Hin.
  destruct (update_outcome_hit _ _ _ _ _ _ Hin Hid) as (a & b & _).
  destruct (r_lines r); split; assumption.
Qed.

Lemma process_stores_anchors_only_witness :
  exists c' r,
    parse_mvp Re.re_search Re.re_findall Float.py_float SampleDocs.caption_number
    = Return r
    /\ SampleRun.process_with (SampleRun.storage_of SampleDocs.caption_number)
         (payload_of SampleRun.leased_job) SampleRun.conn = (Return tt, c')
    /\ txn c' = None
    /\ job (store c')
       = update_outcome "j1"
           (match r_lines r with [] => "succeeded" | _ :: _ => "failed" end)
           (match r_lines r with
            | [] => None
            | _ :: _ =>
                Some "the query has 8 placeholders but 9 parameters were passed"
            end)
           100 [SampleRun.leased_job]
    /\ (forall row, In row (job (store c')) -> job_id row = "j1" ->
          match r_lines r with
          | [] => job_status row = "succeeded" /\ job_error row = None
          | _ :: _ =>
              job_status row = "failed"
              /\ job_error row
                 = Some "the query has 8 placeholders but 9 parameters were passed"
          end)
    /\ has_statement 7 "balance_sheet" (store c') = true
    /\ has_statement 7 "pnl" (store c') = true
    /\ anchor (store c') = [] ++ anchor_rows 7 1 (r_anchors r)
    /\ statement_line (store c') = []
    /\ datum_anchor (store c') = [].
Proof.
  apply (process_stores_anchors_only Q Re.re_search Re.re_findall Float.py_float
           "https://project.supabase.co" "service-key" "filings"
           (SampleRun.storage_of SampleDocs.caption_number)
           (payload_of SampleRun.leased_job) SampleDocs.caption_number SampleRun.conn).
  reflexivity.
Defined.

(** X10: the try statement of [main] never lets an exception out and always
    reports: whatever retrieval does and whatever the document holds, it
    returns with nothing pending, the job table keeping its ids and the
    leased job's row rewritten by [mark_job]: as [failed] with retrieval's
    message when retrieval (the download, or fitz opening the file) raised;
    as [failed] with the ProgrammingError of the INSERT of a line when the
    engine emitted a line; as [succeeded] without error in the one case
    left, a document in which the engine found nothing. *)
Theorem process_always_reports :
  forall (float : Type) (re_search : string -> string -> bool)
         (re_findall : string -> string -> list string)
         (py_float : string -> option float)
         (SUPABASE_URL SERVICE_KEY BUCKET : string)
         (requests_get : string -> string -> outcome (Doc (float := float)))
         (j : Payload) (c : Conn (float := float)),
  exists c',
    process re_search re_findall py_float SUPABASE_URL SERVICE_KEY BUCKET
            requests_get j c = (Return tt, c')
    /\ txn c' = None
    /\ map job_id (job (store c')) = map job_id (job (view c))
    /\ match download_pdf SUPABASE_URL SERVICE_KEY BUCKET requests_get (p_storage_path j) with
       | Raise msg =>
           job (store c')
           = update_outcome (p_id j) "failed" (Some msg) (clock c) (job (view c))
           /\ (forall row, In row (job (store c')) -> job_id row = p_id j ->
                 job_status row = "failed" /\ job_error row = Some msg)
       | Return doc =>
           exists r,
             parse_mvp re_search re_findall py_float doc = Return r
             /\ match r_lines r with
                | [] =>
                    job (store c')
                    = update_outcome (p_id j) "succeeded" None (clock c) (job (view c))
                    /\ (forall row, In row (job (store c')) -> job_id row = p_id j ->
                          job_status row = "succeeded" /\ job_error row = None)
                | _ :: _ =>
                    job (store c')
                    = update_outcome (p_id j) "failed"
                        (Some "the query has 8 placeholders but 9 parameters were passed")
                        (clock c) (job (view c))
                    /\ (forall row, In row (job (store c')) -> job_id row = p_id j ->
                          job_status row = "failed"
                          /\ job_error row
                             = Some "the query has 8 placeholders but 9 parameters were passed")
                end
       end.
Proof.
  intros float re_search re_findall py_float SUPABASE_URL SERVICE_KEY BUCKET
         requests_get j c.
  destruct (download_pdf SUPABASE_URL SERVICE_KEY BUCKET requests_get (p_storage_path j))
    as [doc|msg] eqn:Hd.
  - destruct (process_on_document re_search re_findall py_float SUPABASE_URL SERVICE_KEY
                BUCKET requests_get j doc c Hd) as (c' & r & Rp & R & Ht & Hj & _).
    exists c'. split; [exact R|]. split; [exact Ht|]. split.
    + rewrite Hj. apply update_outcome_ids.
    + exists r. split; [exact Rp|].
      destruct (r_lines r); cbn [reported_status reported_error] in Hj;
        (split; [exact Hj|]); intros row Hin Hid; rewrite Hj in Hin;
        destruct (update_outcome_hit _ _ _ _ _ _ Hin Hid) as (a & b & _);
        split; assumption.
  - destruct (process_on_failure re_search re_findall py_float SUPABASE_URL SERVICE_KEY
                BUCKET requests_get j msg c Hd) as (c' & R & Ht & Hj).
    exists c'. split; [exact R|]. split; [exact Ht|]. split.
    + rewrite Hj. apply update_outcome_ids.
    + split; [exact Hj|]. intros row Hin Hid. rewrite Hj in Hin.
      destruct (update_outcome_hit _ _ _ _ _ _ Hin Hid) as (a & b & _).
      split; assumption.
Qed.


(** ** db.py, more *)

(** X11: [mark_job] for an id no job row has changes no row: the UPDATE
    matches nothing, nothing is raised, and the job table committed is the
    one the connection saw. *)
Theorem mark_job_unknown_id :
  forall (float : Type) (id s : string) (e : option string) (c : Conn (float := float)),
    ~ In id (map job_id (job (view c))) ->
    exists c', mark_job id s e c = (Return tt, c')
               /\ txn c' = None /\ store c' = view c.
Proof.
  intros float id s e c H. eexists. split; [reflexivity|]. split; [reflexivity|].
  rewrite store_commit, view_execute. unfold with_job.
  assert (E : update_outcome id s e (clock c) (job (view c)) = job (view c)).
  { unfold update_outcome. rewrite <- (map_id (job (view c))) at 2.
    apply map_ext_in. intros r Hr.
    destruct (String.eqb_spec (job_id r) id) as [E|_]; [|reflexivity].
    exfalso. apply H. rewrite <- E. apply in_map, Hr. }
  rewrite E. destruct (view c). reflexivity.
Qed.

Lemma mark_job_unknown_id_witness :
  exists c', mark_job "nobody" "failed" (Some "x") SampleRun.conn = (Return tt, c')
             /\ txn c' = None /\ store c' = view SampleRun.conn.
Proof.
  apply (mark_job_unknown_id Q "nobody" "failed" (Some "x") SampleRun.conn).
  cbn. intros [H|[]]. discriminate H.
Defined.

(* ------------------------------------------------------------------ *)
(** ** The loop of main *)

(** X13: the loop of [main] ends on its first turn, before it has processed
    a job or slept.  [fetch_one_job] is called outside the [try], so the
    ProgrammingError of its [fetchone] leaves the [with] block, which rolls
    the connection back, and then the loop: whatever the backlog, the locks
    of other sessions and the documents are, [main] raises that error, and
    the committed database is the one it found, with no transaction open and
    no row locked. *)
Theorem main_ends_on_first_lease :
  forall (float : Type) (tie : list JobRow -> nat)
         (re_search : string -> string -> bool)
         (re_findall : string -> string -> list string)
         (py_float : string -> option float)
         (SUPABASE_URL SERVICE_KEY BUCKET : string)
         (requests_get : string -> string -> outcome (Doc (float := float)))
         (n : nat) (c : Conn (float := float)),
  exists c',
    main tie re_search re_findall py_float SUPABASE_URL SERVICE_KEY BUCKET
         requests_get (S n) c
    = (Raise NoResult, c')
    /\ main_iteration tie re_search re_findall py_float SUPABASE_URL SERVICE_KEY
         BUCKET requests_get c
       = (Raise NoResult, c')
    /\ store c' = store c /\ txn c' = None /\ held c' = [].
Proof.
  intros float tie re_search re_findall py_float SUPABASE_URL SERVICE_KEY BUCKET
         requests_get n c.
  exists (rollback (snd (execute_lease tie c))).
  assert (E : main_iteration tie re_search re_findall py_float SUPABASE_URL SERVICE_KEY
                BUCKET requests_get c
              = (Raise NoResult, rollback (snd (execute_lease tie c)))).
  { unfold main_iteration. rewrite fetch_one_job_raises. reflexivity. }
  split; [cbn [main]; rewrite E; reflexivity|]. split; [exact E|].
  destruct (execute_lease_frame tie c) as (a & _).
  cbn [store rollback txn held]. repeat split. exact a.
Qed.

(** One queued job and a document with a caption: the loop raises, and the
    job is still [queued]. *)
Lemma main_leaves_job_queued :
  exists c',
    main Sample.tie_first Re.re_search Re.re_findall Float.py_float
      "https://project.supabase.co" "service-key" "filings"
      (SampleRun.storage_of SampleDocs.caption_number) 3
      (Sample.fresh [Sample.queued_job "j1" 1] [])
    = (Raise NoResult, c')
    /\ map job_status (job (store c')) = ["queued"]
    /\ statement (store c') = [] /\ anchor (store c') = [].
Proof.
  eexists. split; [reflexivity|]. repeat split.
Qed.


(** ** download_pdf *)

Lemma prefix_app (s t : string) : prefix s (s ++ t)%string = true.
Proof.
  induction s as [|a s IH]; cbn; [destruct t; reflexivity|].
  destruct (ascii_dec a a) as [_|N]; [exact IH|congruence].
Qed.

(** X15: the object [download_pdf] requests.  The URL is the project URL,
    [/storage/v1/object/] and an object path that always begins with the
    bucket name: the storage path itself when it begins with the bucket name,
    whatever follows the name, and otherwise the bucket name, a slash and the
    storage path.  The result is whatever the request gives, a failure
    included. *)
Theorem download_pdf_object_path :
  forall (float : Type) (SUPABASE_URL SERVICE_KEY BUCKET : string)
         (requests_get : string -> string -> outcome (Doc (float := float)))
         (storage_path : string),
  (exists object_path,
     download_pdf SUPABASE_URL SERVICE_KEY BUCKET requests_get storage_path
     = requests_get (SUPABASE_URL ++ "/storage/v1/object/" ++ object_path)%string
                    SERVICE_KEY
     /\ prefix BUCKET object_path = true
     /\ object_path = (if prefix BUCKET storage_path then storage_path
                       else BUCKET ++ "/" ++ storage_path)%string)
  /\ (forall rest,
        download_pdf SUPABASE_URL SERVICE_KEY BUCKET requests_get (BUCKET ++ rest)%string
        = requests_get (SUPABASE_URL ++ "/storage/v1/object/" ++ BUCKET ++ rest)%string
                       SERVICE_KEY).
Proof.
  intros float SUPABASE_URL SERVICE_KEY BUCKET requests_get storage_path. split.
  - unfold download_pdf. destruct (prefix BUCKET storage_path) eqn:P.
    + exists storage_path. repeat split; assumption.
    + exists (BUCKET ++ "/" ++ storage_path)%string.
      split; [reflexivity|]. split; [apply prefix_app|reflexivity].
  - intro rest. unfold download_pdf. rewrite prefix_app. reflexivity.
Qed.

(** ** The number token *)

Lemma str_remove_app a s t :
  str_remove a (s ++ t)%string = (str_remove a s ++ str_remove a t)%string.
Proof.
  induction s as [|c s IH]; cbn; [reflexivity|].
  destruct (Ascii.eqb c a); cbn; rewrite IH; reflexivity.
Qed.

Lemma str_subst_app a b s t :
  str_subst a b (s ++ t)%string = (str_subst a b s ++ str_subst a b t)%string.
Proof. induction s as [|c s IH]; cbn; [reflexivity|]. rewrite IH. reflexivity. Qed.

Lemma clean_number_app s t :
  clean_number (s ++ t)%string = (clean_number s ++ clean_number t)%string.
Proof.
  unfold clean_number. rewrite !str_remove_app, str_subst_app. reflexivity.
Qed.

Lemma clean_number_plain s : plain s = true -> clean_number s = s.
Proof.
  unfold clean_number. induction s as [|c s IH]; intro H; [reflexivity|].
  cbn [plain] in H. apply andb_true_iff in H. destruct H as [H Hs].
  apply andb_true_iff in H. destruct H as [H H3].
  apply andb_true_iff in H. destruct H as [H1 H2].
  apply negb_true_iff in H1, H2, H3.
  cbn [str_remove]. rewrite H1. cbn [str_remove]. rewrite H2. cbn [str_subst].
  rewrite H3, (IH Hs). reflexivity.
Qed.

(** X16: what [clean_number] makes of the separators in a number token.
    Spaces and points are dropped and every comma becomes a point, part by
    part.  So for parts [a], [b], [c] without separators, a token in the
    continental notation [a.b,c] becomes [ab.c], while one in the English
    notation [a,b.c] becomes [a.bc]: the thousands comma is taken for the
    decimal point and the decimal point is lost. *)
Theorem clean_number_separators :
  forall a b c : string,
    plain a = true -> plain b = true -> plain c = true ->
    clean_number (a ++ "." ++ b ++ "," ++ c)%string = (a ++ b ++ "." ++ c)%string
    /\ clean_number (a ++ "," ++ b ++ "." ++ c)%string = (a ++ "." ++ b ++ c)%string
    /\ clean_number (a ++ " " ++ b ++ "," ++ c)%string = (a ++ b ++ "." ++ c)%string.
Proof.
  intros a b c Ha Hb Hc.
  rewrite !clean_number_app, !(clean_number_plain a Ha), !(clean_number_plain b Hb),
    !(clean_number_plain c Hc).
  repeat split.
Qed.

Lemma clean_number_separators_witness :
  clean_number ("1" ++ "." ++ "234" ++ "," ++ "56")%string
  = ("1" ++ "234" ++ "." ++ "56")%string
  /\ clean_number ("1" ++ "," ++ "234" ++ "." ++ "56")%string
     = ("1" ++ "." ++ "234" ++ "56")%string
  /\ clean_number ("1" ++ " " ++ "234" ++ "," ++ "56")%string
     = ("1" ++ "234" ++ "." ++ "56")%string.
Proof.
  apply (clean_number_separators "1" "234" "56"); reflexivity.
Defined.

(** The two notations of one amount, as [float] then reads them. *)
Lemma english_notation_misread :
  Float.py_float (clean_number "1.234,56") = Some (Qmake 30864 25)
  /\ Float.py_float (clean_number "1,234.56") = Some (Qmake 3858 3125).
Proof. split; reflexivity. Qed.

(** ** ensure_statements, what it adds *)

(** X17: [ensure_statements] only ever adds statements of the filing it is
    called for: the committed statement table is the one the connection saw
    followed by at most two new rows, each for that filing, of kind
    [balance_sheet] or [pnl], in language [en] and currency [EUR]; no row is
    removed or changed (statements already doubled stay doubled), and the
    other tables are untouched. *)
Theorem ensure_statements_adds_only :
  forall (float : Type) (filing_id : Z) (c : Conn (float := float)),
  exists c' added,
    ensure_statements filing_id c = (Return tt, c')
    /\ statement (store c') = statement (view c) ++ added
    /\ (List.length added <= 2)%nat
    /\ Forall (fun s => st_filing_id s = filing_id
                        /\ (st_type s = "balance_sheet" \/ st_type s = "pnl")
                        /\ st_language s = "en" /\ st_currency s = "EUR") added
    /\ job (store c') = job (view c)
    /\ statement_line (store c') = statement_line (view c)
    /\ anchor (store c') = anchor (view c)
    /\ datum_anchor (store c') = datum_anchor (view c).
Proof.
  intros float filing_id c. unfold ensure_statements.
  destruct (has_statement filing_id "balance_sheet" (view (begin c))) eqn:B;
    match goal with |- context [has_statement filing_id "pnl" ?d] =>
      destruct (has_statement filing_id "pnl" d) eqn:P end.
  - eexists. exists []. split; [reflexivity|]. cbn. rewrite app_nil_r.
    repeat split; try lia. constructor.
  - eexists. eexists [_]. split; [reflexivity|]. cbn.
    split; [reflexivity|]. split; [lia|].
    split; [repeat (first [apply Forall_nil | apply Forall_cons]); cbn; auto 6|].
    repeat split.
  - eexists. eexists [_]. split; [reflexivity|]. cbn.
    split; [reflexivity|]. split; [lia|].
    split; [repeat (first [apply Forall_nil | apply Forall_cons]); cbn; auto 6|].
    repeat split.
  - eexists. eexists [_; _]. split; [reflexivity|]. cbn. rewrite <- app_assoc.
    split; [reflexivity|]. split; [lia|].
    split; [repeat (first [apply Forall_nil | apply Forall_cons]); cbn; auto 6|].
    repeat split.
Qed.

